(** * AIDungeonMaster front end: session state, history log and stat presentation

    A shallow embedding of the React components of the repository:

    - [PlayerStats]        the stats panel: [getStatIcon], [getStatColor]
                           (second component of unnamed/part_001)
    - [HistoryPanel]       components/HistoryPanel.jsx: the
                           [slice(-10).reverse()] window
    - [WorkingGameScreen]  the game screen with the demo fallback
                           (unnamed/part_003)
    - [GameScreen]         the live-only game screen
                           (first component of unnamed/part_001)
    - [SimpleGameScreen]   components/SimpleGameScreen.jsx, the demo-only screen
    - [StoryPanel]         components/StoryPanel.jsx
    - [App]                src/App.js, the welcome/playing shell

    Conventions of the embedding.

    - A component's [useState] cells are the fields of a record; a setter
      call is a field update.  An event handler runs against the state of
      the render it was created in, which is the state it is applied to here.
    - An [async] handler is split at its single [await]: the [_request] half
      runs up to the outbound call and yields the state committed so far
      with the request, the [_resume] half takes the outcome of the call.
    - [new Date()] is an argument ([now]); [console] output is left out.
    - Strings are the UTF-8 bytes of the JS strings; the engine's Unicode
      case mappings are taken as given or used on ASCII strings only.  Story,
      choices and session id of a response are taken at the types the screens
      use them at (string, array of strings, string or absent). *)

From Stdlib Require Import QArith Ascii String.
From stdpp Require Import gmap strings list fin_maps.

Open Scope string_scope.

(** ** JavaScript values *)

(** A JS number as far as [>] against an integer literal can tell: every
    finite double is a rational. *)
Inductive JSNumber : Type :=
  | Finite (q : Q)
  | PosInfinity
  | NegInfinity
  | NaN.

(** [x > c] for a finite literal [c]; any comparison with [NaN] is false. *)
Definition js_gt (x : JSNumber) (c : Q) : bool :=
  match x with
  | Finite q => negb (Qle_bool q c)
  | PosInfinity => true
  | NegInfinity => false
  | NaN => false
  end.

Inductive JSValue : Type :=
  | VNumber (n : JSNumber)
  | VString (s : string)
  | VArray (items : list string)
  | VBool (b : bool)
  | VNull
  | VUndefined.

(** [Array.prototype.join(", ")]-style joining with a separator. *)
Fixpoint join (sep : string) (items : list string) : string :=
  match items with
  | [] => EmptyString
  | [x] => x
  | x :: rest => x ++ sep ++ join sep rest
  end.

(** [a + 10]: numeric addition on numbers, [null] and booleans, [NaN] on
    [undefined], concatenation with ["10"] on strings and arrays.  The sum is
    the exact one; it is the sum of the code where JS addition is exact, that
    is for whole numbers with a sum below [2^53], and it is only used under
    that bound. *)
Definition js_add_10 (a : JSValue) : JSValue :=
  match a with
  | VNumber (Finite q) => VNumber (Finite (Qred (q + 10)))
  | VNumber n => VNumber n
  | VUndefined => VNumber NaN
  | VNull => VNumber (Finite 10)
  | VBool true => VNumber (Finite 11)
  | VBool false => VNumber (Finite 10)
  | VString s => VString (s ++ "10")
  | VArray l => VString (join "," l ++ "10")
  end.

(** A stats object: string keys, arbitrary values. *)
Abbreviation Stats := (gmap string JSValue).

(** Strings are the UTF-8 bytes of the JS string.  The engine's
    [String.prototype.toLowerCase] and [toUpperCase] map by the Unicode
    tables, which no file of the repository holds: the components that call
    [toLowerCase] take it as given (see [PlayerStats]).  What is defined here
    is its restriction to strings of ASCII characters, on which lower-casing
    turns [A-Z] into [a-z] and upper-casing [a-z] into [A-Z], one character
    for one. *)
Fixpoint is_ascii (s : string) : bool :=
  match s with
  | EmptyString => true
  | String c rest => (nat_of_ascii c <? 128)%nat && is_ascii rest
  end.

Definition lower_ascii (c : ascii) : ascii :=
  let n := nat_of_ascii c in
  if (65 <=? n)%nat && (n <=? 90)%nat then ascii_of_nat (n + 32) else c.

(** [s.toLowerCase()] for [s] a string of ASCII characters. *)
Fixpoint ascii_toLowerCase (s : string) : string :=
  match s with
  | EmptyString => EmptyString
  | String c rest => String (lower_ascii c) (ascii_toLowerCase rest)
  end.

(** Truthiness of a string-or-null cell ([!sessionId], [a || b]): [null],
    [undefined] and the empty string are falsy. *)
Definition truthy (o : option string) : bool :=
  match o with
  | Some s => negb (String.eqb s EmptyString)
  | None => false
  end.

(** [a || b] on string-or-undefined operands, with [b] a string literal. *)
Definition or_else (a : option string) (b : string) : string :=
  match a with
  | Some s => if String.eqb s EmptyString then b else s
  | None => b
  end.

(** [`${x}`] for a string-or-undefined [x]. *)
Definition interpolate (x : option string) : string :=
  match x with
  | Some s => s
  | None => "undefined"
  end.

(** The double quote and the line feed of the template literals. *)
Definition dquote : string := String (ascii_of_nat 34) EmptyString.
Definition newline : string := String (ascii_of_nat 10) EmptyString.

(** [arr[i]] for a JS number [i] that is an integer: [undefined] out of range. *)
Definition index {A} (arr : list A) (i : Z) : option A :=
  if (i <? 0)%Z then None else arr !! Z.to_nat i.

(** [Array.prototype.slice(start)]: a negative [start] counts from the end,
    clamped at 0; a positive one is clamped at the length. *)
Definition slice {A} (start : Z) (arr : list A) : list A :=
  let len := Z.of_nat (length arr) in
  let k := if (start <? 0)%Z then Z.max (len + start) 0 else Z.min start len in
  drop (Z.to_nat k) arr.

(** [c.toUpperCase()] for [c] an ASCII character; the labels built with it
    below are those of the code for keys of ASCII characters. *)
Definition upper_ascii (c : ascii) : ascii :=
  let n := nat_of_ascii c in
  if (97 <=? n)%nat && (n <=? 122)%nat then ascii_of_nat (n - 32) else c.

(** [key.charAt(0).toUpperCase() + key.slice(1)], for a key of ASCII
    characters. *)
Definition capitalize (key : string) : string :=
  match key with
  | EmptyString => EmptyString
  | String c rest => String (upper_ascii c) rest
  end.

(** [s.replace(/_/g, " ")] *)
Fixpoint replace_underscores (s : string) : string :=
  match s with
  | EmptyString => EmptyString
  | String c rest =>
      String (if Ascii.eqb c "_"%char then " "%char else c) (replace_underscores rest)
  end.

(** ** PlayerStats.jsx *)

Module PlayerStats.

(** The lucide icons the component imports. *)
Inductive Icon : Type := Heart | Coins | Shield | Zap | User.

Section Engine.

(** [String.prototype.toLowerCase], the engine's. *)
Variable toLowerCase : string -> string.

Definition getStatIcon (statKey : string) : Icon :=
  let k := toLowerCase statKey in
  if String.eqb k "hp" || String.eqb k "health" then Heart
  else if String.eqb k "gold" || String.eqb k "coins" then Coins
  else if String.eqb k "defense" || String.eqb k "armor" then Shield
  else if String.eqb k "strength" || String.eqb k "attack" then Zap
  else User.

Definition getStatColor (key : string) (value : JSValue) : string :=
  let k := toLowerCase key in
  if String.eqb k "hp" || String.eqb k "health" then
    match value with
    | VNumber n => (* typeof value === "number" *)
        if js_gt n 75 then "#4caf50"
        else if js_gt n 25 then "#ff9800"
        else "#f44336"
    | _ => "#4caf50"
    end
  else if String.eqb k "gold" || String.eqb k "coins" then "#ffd700"
  else "#e0c080".

End Engine.

(** [key.charAt(0).toUpperCase() + key.slice(1).replace(/_/g, " ")], for a
    key of ASCII characters. *)
Definition formatStatKey (key : string) : string :=
  match key with
  | EmptyString => EmptyString
  | String c rest => String (upper_ascii c) (replace_underscores rest)
  end.

End PlayerStats.

(** ** Arrays as shared objects

    [slice] allocates a new array, [reverse] works in place on its receiver.
    A store maps array references to contents, so that a render that reverses
    can be checked against the array it was handed. *)

Section ArrayStore.
Context {A : Type}.

Definition store_read (r : nat) (sigma : gmap nat (list A)) : list A :=
  default [] (sigma !! r).

(** [r.slice(start)]: a fresh reference holding the copied suffix. *)
Definition store_slice (start : Z) (r : nat) (sigma : gmap nat (list A))
  : gmap nat (list A) * nat :=
  let r' := fresh (dom sigma) in
  (<[r' := slice start (store_read r sigma)]> sigma, r').

(** [r.reverse()]: reverses the array at [r] itself and returns [r]. *)
Definition store_reverse (r : nat) (sigma : gmap nat (list A))
  : gmap nat (list A) * nat :=
  (alter reverse r sigma, r).

(** [r.slice(start).reverse()] *)
Definition slice_reverse (start : Z) (r : nat) (sigma : gmap nat (list A))
  : gmap nat (list A) * nat :=
  let '(sigma1, r1) := store_slice start r sigma in
  store_reverse r1 sigma1.

End ArrayStore.

(** ** History entries and game snapshots *)

Module Entry.
(** [{ story, choice, timestamp }]; [choice] is [choices[choiceIndex]], which
    is [undefined] when the index is out of range. *)
Record t : Type := mk {
  story : string;
  choice : option string;
  timestamp : Z
}.
End Entry.

Module Game.
(** The [gameState] object [{ story, choices, stats }]. *)
Record t : Type := mk {
  story : string;
  choices : list string;
  stats : Stats
}.
End Game.

(** ** HistoryPanel.jsx *)

Module HistoryPanel.

(** One rendered [history-entry]: its [#number] and the entry it shows. *)
Record Row : Type := mkRow {
  number : nat;
  entry : Entry.t
}.

(** What the panel shows: the placeholder, or the rows followed by the
    optional [history-overflow] line with its count. *)
Inductive View : Type :=
  | NoHistory
  | HistoryList (rows : list Row) (overflow : option nat).

Definition render (history : nat) (sigma : gmap nat (list Entry.t))
  : gmap nat (list Entry.t) * View :=
  let len := length (store_read history sigma) in
  if (len =? 0)%nat then (sigma, NoHistory)
  else
    let '(sigma', shown) := slice_reverse (-10) history sigma in
    (sigma',
     HistoryList
       (imap (fun index e => mkRow (len - index) e) (store_read shown sigma'))
       (if (10 <? len)%nat then Some (len - 10)%nat else None)).

End HistoryPanel.

(** ** The backend, seen from the client *)

(** The bodies the screens post. *)
Inductive Request : Type :=
  | StartGame (player_name : string)
  | MakeChoice (session_id : string) (choice_index : Z).

Module Response.
(** [response.data] of [/start-game] and [/make-choice], with the fields the
    screens read. *)
Record t : Type := mk {
  success : bool;
  session_id : option string;
  story : string;
  choices : list string;
  player_stats : Stats;
  message : option string
}.
End Response.

(** How an [axios.post] settles: resolved with [response.data] (possibly
    absent), or rejected with an error whose [response?.data?.message] may be
    present. *)
Inductive Outcome : Type :=
  | Resolved (data : option Response.t)
  | Rejected (server_message : option string).

(** [response.data && response.data.success]: the data the success branch
    runs on, [None] when the handler throws into its [catch]. *)
Definition ok (o : Outcome) : option Response.t :=
  match o with
  | Resolved (Some d) => if Response.success d then Some d else None
  | Resolved None => None
  | Rejected _ => None
  end.

(** [err.response?.data?.message] in a [catch]: only a rejected call carries
    one; an error thrown by the handler itself has no [response]. *)
Definition server_message (o : Outcome) : option string :=
  match o with
  | Rejected m => m
  | Resolved _ => None
  end.

(** Where a handler stands when it gives control back. *)
Inductive Step (S : Type) : Type :=
  | Return (s : S)
  | Await (s : S) (req : Request)
  | Throws (s : S).
Arguments Return {S} s.
Arguments Await {S} s req.
Arguments Throws {S} s.

(** The modes of the session view-model.  The screens keep no such cell; each
    screen's [mode] below reads it off [isLoading], [demoMode], [gameState]
    and [error]. *)
Inductive Mode : Type := Uninitialized | Loading | Live | Demo | Failed.

(** A rendered choice button: the index its [onClick] passes to [makeChoice]
    and its [disabled] attribute. *)
Record Button : Type := mkButton {
  text : string;
  onClick : nat;
  disabled : bool
}.

(** The inline adventure log of the screens that do not use HistoryPanel:
    [history.slice(-5).reverse().map(entry => entry.choice)] behind the
    [history.length === 0] placeholder. *)
Inductive LogView : Type :=
  | Placeholder
  | LogList (shown : list (option string)).

Definition adventureLog (history : nat) (sigma : gmap nat (list Entry.t))
  : gmap nat (list Entry.t) * LogView :=
  if (length (store_read history sigma) =? 0)%nat then (sigma, Placeholder)
  else
    let '(sigma', shown) := slice_reverse (-5) history sigma in
    (sigma', LogList (Entry.choice <$> store_read shown sigma')).

(** ** StoryPanel.jsx *)

Module StoryPanel.

(** The content of the panel: the loading dots with their line, or the story. *)
Inductive View : Type :=
  | Weaving
  | StoryText (story : string).

Definition render (story : string) (isLoading : bool) : View :=
  if isLoading then Weaving else StoryText story.

End StoryPanel.

(** The body of [/save-game]. *)
Inductive SaveRequest : Type :=
  | SaveGame (session_id : string) (save_name : string).

(** ** The game screen with the demo fallback *)

Module WorkingGameScreen.

Definition demoData : Game.t :=
  Game.mk
    "You stand at the entrance of a dark, ancient dungeon. The Dungeon Master awaits your decision."
    [ "Enter the dungeon cautiously";
      "Examine the entrance for traps";
      "Call out to announce your presence" ]
    (<["name" := VString "Adventurer"]>
       (<["health" := VNumber (Finite 100)]>
          (<["gold" := VNumber (Finite 50)]>
             (<["level" := VNumber (Finite 1)]> ∅)))).

Record State : Type := mkState {
  gameState : option Game.t;
  isLoading : bool;
  error : option string;
  history : list Entry.t;
  sessionId : option string;
  demoMode : bool
}.

(** The [useState] initial values. *)
Definition initial : State := mkState None true None [] None false.

Definition setGameState (v : option Game.t) (s : State) : State :=
  mkState v (isLoading s) (error s) (history s) (sessionId s) (demoMode s).
Definition setIsLoading (v : bool) (s : State) : State :=
  mkState (gameState s) v (error s) (history s) (sessionId s) (demoMode s).
Definition setError (v : option string) (s : State) : State :=
  mkState (gameState s) (isLoading s) v (history s) (sessionId s) (demoMode s).
Definition setHistory (v : list Entry.t) (s : State) : State :=
  mkState (gameState s) (isLoading s) (error s) v (sessionId s) (demoMode s).
Definition setSessionId (v : option string) (s : State) : State :=
  mkState (gameState s) (isLoading s) (error s) (history s) v (demoMode s).
Definition setDemoMode (v : bool) (s : State) : State :=
  mkState (gameState s) (isLoading s) (error s) (history s) (sessionId s) v.

(** [startNewGame] up to its [await]. *)
Definition startNewGame_request (s : State) : State * Request :=
  let s := setIsLoading true s in
  let s := setError None s in
  let s := setDemoMode false s in
  (s, StartGame "Adventurer").

(** [startNewGame] from the settled call on: the success branch, the [catch]
    with the demo fallback, then the [finally]. *)
Definition startNewGame_resume (s : State) (o : Outcome) : State :=
  let s :=
    match ok o with
    | Some d =>
        let s := setGameState
                   (Some (Game.mk (Response.story d) (Response.choices d)
                                  (Response.player_stats d))) s in
        let s := setSessionId (Response.session_id d) s in
        setHistory [] s
    | None =>
        let s := setDemoMode true s in
        let s := setGameState (Some demoData) s in
        let s := setHistory [] s in
        setError None s
    end in
  setIsLoading false s.

Definition startNewGame (s : State) (o : Outcome) : State :=
  startNewGame_resume (fst (startNewGame_request s)) o.

(** [makeChoice] up to its [return] (demo mode, no session) or its [await].
    With [gameState] still [null] the demo branch dereferences it and throws. *)
Definition makeChoice_request (s : State) (choiceIndex : Z) (now : Z) : Step State :=
  if demoMode s then
    match gameState s with
    | None => Throws s
    | Some g =>
        let s := setHistory
                   (history s ++
                    [Entry.mk (Game.story g) (index (Game.choices g) choiceIndex) now]) s in
        let s := setGameState
                   (Some (Game.mk
                      ("You chose: " ++ dquote ++
                       interpolate (index (Game.choices g) choiceIndex) ++ dquote ++
                       newline ++ newline ++
                       "The adventure continues in demo mode...")
                      [ "Continue exploring";
                        "Check your surroundings";
                        "Try something different" ]
                      (Game.stats g))) s in
        Return s
    end
  else
    match sessionId s with
    | Some sid =>
        if String.eqb sid EmptyString
        then Return (setError (Some "No active game session") s)
        else
          let s' := setIsLoading true s in
          let s' :=
            match gameState s with
            | Some g =>
                setHistory
                  (history s' ++
                   [Entry.mk (Game.story g) (index (Game.choices g) choiceIndex) now]) s'
            | None => s'
            end in
          Await s' (MakeChoice sid choiceIndex)
    | None => Return (setError (Some "No active game session") s)
    end.

(** [makeChoice] from the settled call on. *)
Definition makeChoice_resume (s : State) (o : Outcome) : State :=
  let s :=
    match ok o with
    | Some d =>
        let s := setGameState
                   (Some (Game.mk (Response.story d) (Response.choices d)
                                  (Response.player_stats d))) s in
        setError None s
    | None => setError (Some "Failed to process your choice. Please try again.") s
    end in
  setIsLoading false s.

(** One whole call, settled by [o] when it reaches the backend. *)
Definition makeChoice (s : State) (choiceIndex : Z) (now : Z) (o : Outcome) : State :=
  match makeChoice_request s choiceIndex now with
  | Return s' => s'
  | Await s' _ => makeChoice_resume s' o
  | Throws s' => s'
  end.

(** A sequence of calls, each with the index picked, the clock reading and
    the way its request (if any) settles. *)
Record Call : Type := mkCall {
  picked : Z;
  at_time : Z;
  settles : Outcome
}.

Definition run (s : State) (calls : list Call) : State :=
  fold_left (fun s c => makeChoice s (picked c) (at_time c) (settles c)) calls s.

(** The states in which [makeChoice] gets past its guards: a game is on
    screen, and the screen is in demo mode or holds a session id. *)
Definition accepts (s : State) : bool :=
  match gameState s with
  | Some _ => demoMode s || truthy (sessionId s)
  | None => false
  end.

(** The choice buttons: one per entry of [gameState.choices], each
    [disabled={isLoading}]. *)
Definition choiceButtons (s : State) : list Button :=
  match gameState s with
  | Some g => imap (fun index choice => mkButton choice index (isLoading s))
                   (Game.choices g)
  | None => []
  end.

(** A click: a disabled button fires no handler. *)
Definition click (b : Button) (s : State) (now : Z) : Step State :=
  if disabled b then Return s
  else makeChoice_request s (Z.of_nat (onClick b)) now.

(** The mode the state cells stand for: loading while a request is in
    flight, else demo under the [demoMode] flag, else live once a game is on
    screen (an error message may be showing next to it), else failed or not
    yet started. *)
Definition mode (s : State) : Mode :=
  if isLoading s then Loading
  else if demoMode s then Demo
  else match gameState s with
       | Some _ => Live
       | None => match error s with Some _ => Failed | None => Uninitialized end
       end.

(** [isLoading && !gameState]: the render that shows the initializing screen
    instead of the game. *)
Definition initializing (s : State) : bool :=
  match gameState s with
  | None => isLoading s
  | Some _ => false
  end.

(** What can happen to the screen: a start (on mount or from the New
    Adventure button, which is never disabled) running up to its [await], a
    call of [makeChoice] running up to its [return] or [await], and either
    kind of request settling.  Settlements are not tied to requests here, so
    the runs of events include every interleaving the screen can see. *)
Inductive Event : Type :=
  | NewAdventure
  | StartSettles (o : Outcome)
  | Choose (choiceIndex : Z) (now : Z)
  | ChoiceSettles (o : Outcome).

Definition after (s : State) (e : Event) : State :=
  match e with
  | NewAdventure => fst (startNewGame_request s)
  | StartSettles o => startNewGame_resume s o
  | Choose choiceIndex now =>
      match makeChoice_request s choiceIndex now with
      | Return s' => s'
      | Await s' _ => s'
      | Throws s' => s'
      end
  | ChoiceSettles o => makeChoice_resume s o
  end.

Definition trace (s : State) (events : list Event) : State :=
  fold_left after events s.

(** What every handler keeps: demo mode and a session id only ever come with
    a game on screen. *)
Definition game_on_screen (s : State) : Prop :=
  (demoMode s = true -> is_Some (gameState s)) /\
  (truthy (sessionId s) = true -> is_Some (gameState s)).

(** The screen together with the requests it has posted that have not
    settled yet. *)
Record World : Type := mkWorld {
  screen : State;
  pending : list Request
}.

(** What the user and the network can do to it: click the [i]-th choice
    button, click New Adventure, and let the [k]-th pending request settle. *)
Inductive UiEvent : Type :=
  | ClickChoice (i : nat) (now : Z)
  | ClickNewAdventure
  | Settle (k : nat) (o : Outcome).

(** A click only counts on a button that is rendered: the choice buttons are
    those of [choiceButtons], and the initializing view has no New Adventure
    button.  A settlement runs the continuation of the handler that posted
    the request. *)
Definition ui_step (w : World) (e : UiEvent) : World :=
  match e with
  | ClickChoice i now =>
      match choiceButtons (screen w) !! i with
      | Some b =>
          match click b (screen w) now with
          | Return s' => mkWorld s' (pending w)
          | Await s' req => mkWorld s' (pending w ++ [req])
          | Throws s' => mkWorld s' (pending w)
          end
      | None => w
      end
  | ClickNewAdventure =>
      if initializing (screen w) then w
      else mkWorld (fst (startNewGame_request (screen w)))
                   (pending w ++ [snd (startNewGame_request (screen w))])
  | Settle k o =>
      match pending w !! k with
      | Some (StartGame _) =>
          mkWorld (startNewGame_resume (screen w) o) (delete k (pending w))
      | Some (MakeChoice _ _) =>
          mkWorld (makeChoice_resume (screen w) o) (delete k (pending w))
      | None => w
      end
  end.

Definition ui_run (w : World) (events : list UiEvent) : World :=
  fold_left ui_step events w.

(** The screen once mounted: the effect has called [startNewGame]. *)
Definition mounted : World :=
  mkWorld (fst (startNewGame_request initial)) [snd (startNewGame_request initial)].

End WorkingGameScreen.

(** ** GameScreen.jsx: the live-only screen *)

Module GameScreen.

Record State : Type := mkState {
  gameState : option Game.t;
  isLoading : bool;
  error : option string;
  history : list Entry.t;
  sessionId : option string
}.

Definition initial : State := mkState None true None [] None.

Definition setGameState (v : option Game.t) (s : State) : State :=
  mkState v (isLoading s) (error s) (history s) (sessionId s).
Definition setIsLoading (v : bool) (s : State) : State :=
  mkState (gameState s) v (error s) (history s) (sessionId s).
Definition setError (v : option string) (s : State) : State :=
  mkState (gameState s) (isLoading s) v (history s) (sessionId s).
Definition setHistory (v : list Entry.t) (s : State) : State :=
  mkState (gameState s) (isLoading s) (error s) v (sessionId s).
Definition setSessionId (v : option string) (s : State) : State :=
  mkState (gameState s) (isLoading s) (error s) (history s) v.

Definition startNewGame_request (s : State) : State * Request :=
  let s := setIsLoading true s in
  let s := setError None s in
  (s, StartGame "Adventurer").

Definition startNewGame_resume (s : State) (o : Outcome) : State :=
  let s :=
    match ok o with
    | Some d =>
        let s := setGameState
                   (Some (Game.mk (Response.story d) (Response.choices d)
                                  (Response.player_stats d))) s in
        let s := setSessionId (Response.session_id d) s in
        setHistory [] s
    | None =>
        setError
          (Some (or_else (server_message o)
             "Failed to connect to game server. Please check if the backend is running on port 5000."))
          s
    end in
  setIsLoading false s.

Definition startNewGame (s : State) (o : Outcome) : State :=
  startNewGame_resume (fst (startNewGame_request s)) o.

Definition makeChoice_request (s : State) (choiceIndex : Z) (now : Z) : Step State :=
  match sessionId s with
  | Some sid =>
      if String.eqb sid EmptyString
      then Return (setError (Some "No active game session") s)
      else
        let s' := setIsLoading true s in
        let s' :=
          match gameState s with
          | Some g =>
              setHistory
                (history s' ++
                 [Entry.mk (Game.story g) (index (Game.choices g) choiceIndex) now]) s'
          | None => s'
          end in
        Await s' (MakeChoice sid choiceIndex)
  | None => Return (setError (Some "No active game session") s)
  end.

Definition makeChoice_resume (s : State) (o : Outcome) : State :=
  let s :=
    match ok o with
    | Some d =>
        let s := setGameState
                   (Some (Game.mk (Response.story d) (Response.choices d)
                                  (Response.player_stats d))) s in
        setError None s
    | None =>
        setError
          (Some (or_else (server_message o)
             "Failed to process your choice. Please try again.")) s
    end in
  setIsLoading false s.

Definition makeChoice (s : State) (choiceIndex : Z) (now : Z) (o : Outcome) : State :=
  match makeChoice_request s choiceIndex now with
  | Return s' => s'
  | Await s' _ => makeChoice_resume s' o
  | Throws s' => s'
  end.

Definition mode (s : State) : Mode :=
  if isLoading s then Loading
  else match gameState s with
       | Some _ => Live
       | None => match error s with Some _ => Failed | None => Uninitialized end
       end.

(** [saveGame] up to its early [return] or its [await]. *)
Definition saveGame_request (s : State) : option SaveRequest :=
  match sessionId s with
  | Some sid =>
      if String.eqb sid EmptyString then None else Some (SaveGame sid "web_save")
  | None => None
  end.

(** The [setTimeout(() => setError(null), 3000)] a successful save leaves
    behind. *)
Inductive Timer : Type :=
  | ClearError (delay_ms : nat).

(** [saveGame] from the settled call on.  An answer whose [success] is falsy
    does nothing; an answer without data makes [response.data.success] throw
    into the [catch]. *)
Definition saveGame_resume (s : State) (o : Outcome) : State * option Timer :=
  match o with
  | Resolved (Some d) =>
      if Response.success d
      then (setError (Some "Game saved successfully!") s, Some (ClearError 3000))
      else (s, None)
  | Resolved None => (setError (Some "Failed to save game") s, None)
  | Rejected _ => (setError (Some "Failed to save game") s, None)
  end.

(** The timer's callback. *)
Definition timer_fires (s : State) : State := setError None s.

(** What the component returns. *)
Record Layout : Type := mkLayout {
  storyPanel : StoryPanel.View;
  choicesPanel : option (list string * bool);
  errorMessage : option string;
  playerStats : Stats;
  historyPanel : list Entry.t
}.

Inductive View : Type :=
  | LoadingScreen (message : string)
  | Screen (layout : Layout).

Definition render (s : State) : View :=
  match gameState s, isLoading s with
  | None, true => LoadingScreen "Initializing your adventure..."
  | _, _ =>
      Screen
        (mkLayout
           (StoryPanel.render
              (or_else (Game.story <$> gameState s) "Your adventure awaits...")
              (isLoading s))
           ((fun g => (Game.choices g, isLoading s)) <$> gameState s)
           (if truthy (error s) then error s else None)
           (default ∅ (Game.stats <$> gameState s))
           (history s))
  end.

End GameScreen.

(** ** SimpleGameScreen.jsx: the demo-only screen *)

Module SimpleGameScreen.

Definition demoData : Game.t :=
  Game.mk
    "You stand at the entrance of a dark, ancient dungeon. Shadows dance on the weathered stone walls, and a mystical energy fills the air. The Dungeon Master's eyes gleam with ancient wisdom as he presents your options."
    [ "Step forward into the mysterious corridor";
      "Examine the ancient runes carved into the wall";
      "Call out to see if anyone else is nearby" ]
    (<["name" := VString "Brave Adventurer"]>
       (<["health" := VNumber (Finite 100)]>
          (<["gold" := VNumber (Finite 25)]>
             (<["level" := VNumber (Finite 1)]>
                (<["experience" := VNumber (Finite 0)]> ∅))))).

Record State : Type := mkState {
  gameState : Game.t;
  history : list Entry.t;
  isLoading : bool
}.

Definition initial : State := mkState demoData [] false.

Definition setGameState (v : Game.t) (s : State) : State :=
  mkState v (history s) (isLoading s).
Definition setHistory (v : list Entry.t) (s : State) : State :=
  mkState (gameState s) v (isLoading s).

Definition makeChoice (s : State) (choiceIndex : Z) (now : Z) : State :=
  let g := gameState s in
  let s := setHistory
             (history s ++
              [Entry.mk (Game.story g) (index (Game.choices g) choiceIndex) now]) s in
  setGameState
    (Game.mk
       ("You chose: " ++ dquote ++
        interpolate (index (Game.choices g) choiceIndex) ++ dquote ++
        newline ++ newline ++
        "The dungeon seems to respond to your decision. New paths appear before you, each more mysterious than the last.")
       [ "Venture deeper into the shadows";
         "Search for hidden treasures";
         "Try to find a way back" ]
       (<["experience" :=
            js_add_10 (default VUndefined (Game.stats g !! "experience"))]>
          (Game.stats g)))
    s.

Definition startNewGame (s : State) : State :=
  let s := setGameState demoData s in
  setHistory [] s.

Definition choiceButtons (s : State) : list Button :=
  imap (fun index choice => mkButton choice index (isLoading s))
       (Game.choices (gameState s)).

(** A sequence of clicks: the index picked and the clock reading of each. *)
Definition run (s : State) (calls : list (Z * Z)) : State :=
  fold_left (fun s c => makeChoice s (fst c) (snd c)) calls s.

End SimpleGameScreen.

(** ** App.js: the welcome / playing shell *)

Module App.

(** The [gameState] cell: ['welcome'], ['playing'], ['loading']. *)
Inductive Screen : Type := welcome | playing | loading.

(** The two kinds of [storyHistory] items. *)
Inductive HistoryItem : Type :=
  | player (content : string) (timestamp : Z)
  | dm (content : string) (choices : list string) (timestamp : Z).

(** What [gameApi.startGame] and [gameApi.makeChoice] resolve to. *)
Record ApiResponse : Type := mkResponse {
  session_id : option string;
  story : string;
  choices : list string;
  player_stats : option Stats;
  player_action : string
}.

(** [gameApi] lives in [services/api], outside the sources at hand; a call
    to it either resolves with a response or rejects. *)
Inductive ApiOutcome : Type :=
  | ApiResolved (response : ApiResponse)
  | ApiRejected.

Inductive Toast : Type :=
  | toast_success (msg : string)
  | toast_error (msg : string).

Record State : Type := mkState {
  gameState : Screen;
  sessionId : option string;
  currentStory : string;
  currentChoices : list string;
  playerStats : option Stats;
  storyHistory : list HistoryItem;
  isLoading : bool
}.

Definition initial : State := mkState welcome None EmptyString [] None [] false.

Definition setGameState (v : Screen) (s : State) : State :=
  mkState v (sessionId s) (currentStory s) (currentChoices s) (playerStats s)
          (storyHistory s) (isLoading s).
Definition setSessionId (v : option string) (s : State) : State :=
  mkState (gameState s) v (currentStory s) (currentChoices s) (playerStats s)
          (storyHistory s) (isLoading s).
Definition setCurrentStory (v : string) (s : State) : State :=
  mkState (gameState s) (sessionId s) v (currentChoices s) (playerStats s)
          (storyHistory s) (isLoading s).
Definition setCurrentChoices (v : list string) (s : State) : State :=
  mkState (gameState s) (sessionId s) (currentStory s) v (playerStats s)
          (storyHistory s) (isLoading s).
Definition setPlayerStats (v : option Stats) (s : State) : State :=
  mkState (gameState s) (sessionId s) (currentStory s) (currentChoices s) v
          (storyHistory s) (isLoading s).
Definition setStoryHistory (v : list HistoryItem) (s : State) : State :=
  mkState (gameState s) (sessionId s) (currentStory s) (currentChoices s)
          (playerStats s) v (isLoading s).
Definition setIsLoading (v : bool) (s : State) : State :=
  mkState (gameState s) (sessionId s) (currentStory s) (currentChoices s)
          (playerStats s) (storyHistory s) v.

Definition startNewGame_request (s : State) (playerName : string) : State * Request :=
  let s := setIsLoading true s in
  let s := setGameState loading s in
  (s, StartGame playerName).

Definition startNewGame_resume (s : State) (playerName : string) (o : ApiOutcome)
  : State * Toast :=
  match o with
  | ApiResolved response =>
      let s := setSessionId (session_id response) s in
      let s := setCurrentStory (story response) s in
      let s := setCurrentChoices (choices response) s in
      let s := setPlayerStats (player_stats response) s in
      let s := setStoryHistory [] s in
      let s := setGameState playing s in
      (setIsLoading false s,
       toast_success ("Welcome, " ++ playerName ++ "! Your adventure begins..."))
  | ApiRejected =>
      let s := setGameState welcome s in
      (setIsLoading false s, toast_error "Failed to start game. Please try again.")
  end.

Definition startNewGame (s : State) (playerName : string) (o : ApiOutcome) : State :=
  fst (startNewGame_resume (fst (startNewGame_request s playerName)) playerName o).

(** [makeChoice] up to its early [return] or its [await]. *)
Definition makeChoice_request (s : State) (choiceIndex : Z) : Step State :=
  match sessionId s with
  | Some sid =>
      if String.eqb sid EmptyString then Return s
      else Await (setIsLoading true s) (MakeChoice sid choiceIndex)
  | None => Return s
  end.

(** [makeChoice] from the settled call on; [now1] and [now2] are the two
    [new Date()] readings. *)
Definition makeChoice_resume (s : State) (o : ApiOutcome) (now1 now2 : Z)
  : State * Toast :=
  match o with
  | ApiResolved response =>
      let s := setStoryHistory
                 (storyHistory s ++ [player (player_action response) now1]) s in
      let s := setCurrentStory (story response) s in
      let s := setCurrentChoices (choices response) s in
      let s := setPlayerStats (player_stats response) s in
      let s := setStoryHistory
                 (storyHistory s ++ [dm (story response) (choices response) now2]) s in
      (setIsLoading false s, toast_success "The adventure continues...")
  | ApiRejected =>
      (setIsLoading false s,
       toast_error "Failed to process your choice. Please try again.")
  end.

Definition makeChoice (s : State) (choiceIndex : Z) (o : ApiOutcome) (now1 now2 : Z)
  : State :=
  match makeChoice_request s choiceIndex with
  | Return s' => s'
  | Await s' _ => fst (makeChoice_resume s' o now1 now2)
  | Throws s' => s'
  end.

Record Call : Type := mkCall {
  picked : Z;
  settles : ApiOutcome;
  at_time1 : Z;
  at_time2 : Z
}.

Definition run (s : State) (calls : list Call) : State :=
  fold_left (fun s c => makeChoice s (picked c) (settles c) (at_time1 c) (at_time2 c))
            calls s.

(** The items one call leaves in [storyHistory] once past the session guard:
    the player's action and the narrator's answer, both read from the
    response; nothing when the call is rejected. *)
Definition items_of (c : Call) : list HistoryItem :=
  match settles c with
  | ApiResolved response =>
      [ player (player_action response) (at_time1 c);
        dm (story response) (choices response) (at_time2 c) ]
  | ApiRejected => []
  end.

(** The other calls of [gameApi]. *)
Inductive ApiCall : Type :=
  | SaveGameCall (session_id : string) (saveName : string)
  | GetStats (session_id : string)
  | EndSession (session_id : string).

(** The session id a guarded handler goes on with, if any ([if (!sessionId)
    return], [if (sessionId)]). *)
Definition session (s : State) : option string :=
  match sessionId s with
  | Some sid => if String.eqb sid EmptyString then None else Some sid
  | None => None
  end.

(** [iso.split("T")[0]] *)
Fixpoint before_T (iso : string) : string :=
  match iso with
  | EmptyString => EmptyString
  | String c rest => if Ascii.eqb c "T"%char then EmptyString else String c (before_T rest)
  end.

(** [saveGame] up to its [await]; [iso] is [new Date().toISOString()] and
    [millis] the digits of [Date.now()]. *)
Definition saveGame_request (s : State) (iso millis : string) : option ApiCall :=
  match session s with
  | Some sid => Some (SaveGameCall sid ("save_" ++ before_T iso ++ "_" ++ millis))
  | None => None
  end.

(** [saveGame] from the settled call on ([resolved] tells how it settled). *)
Definition saveGame_resume (s : State) (resolved : bool) : State * Toast :=
  if resolved then (s, toast_success "Game saved successfully!")
  else (s, toast_error "Failed to save game. Please try again.").

Definition getPlayerStats_request (s : State) : option ApiCall :=
  match session s with
  | Some sid => Some (GetStats sid)
  | None => None
  end.

Definition getPlayerStats_resume (s : State) (o : ApiOutcome) : State * option Toast :=
  match o with
  | ApiResolved response => (setPlayerStats (player_stats response) s, None)
  | ApiRejected => (s, Some (toast_error "Failed to retrieve player stats."))
  end.

(** [endGame] up to its [await]: the session is ended on the backend only if
    there is one. *)
Definition endGame_request (s : State) : option ApiCall :=
  match session s with
  | Some sid => Some (EndSession sid)
  | None => None
  end.

(** [endGame] after the [if]: the same resets whether the call resolved, was
    rejected (the [catch] only logs) or was never made. *)
Definition endGame_resume (s : State) : State * Toast :=
  let s := setSessionId None s in
  let s := setCurrentStory EmptyString s in
  let s := setCurrentChoices [] s in
  let s := setPlayerStats None s in
  let s := setStoryHistory [] s in
  let s := setGameState welcome s in
  (s, toast_success "Adventure ended. Thanks for playing!").

Definition endGame (s : State) : State := fst (endGame_resume s).

End App.

(** ** Sample data for the concrete runs *)

(** A numbered history entry whose choice is the [n]-th capital letter. *)
Definition sample_entry (n : nat) : Entry.t :=
  Entry.mk "story" (Some (String (ascii_of_nat (64 + n)) EmptyString)) (Z.of_nat n).

(** * Properties *)

(** ** Strings and numbers *)

Lemma js_gt_finite (q c : Q) : js_gt (Finite q) c = true <-> (c < q)%Q.
Proof.
  unfold js_gt. rewrite negb_true_iff.
  split.
  - intros H. apply Qnot_le_lt. intros Hle.
    apply Qle_bool_iff in Hle. congruence.
  - intros H. destruct (Qle_bool q c) eqn:E; [|reflexivity].
    apply Qle_bool_iff in E. exfalso. exact (Qlt_not_le _ _ H E).
Qed.

Lemma js_gt_finite_false (q c : Q) : js_gt (Finite q) c = false <-> (q <= c)%Q.
Proof.
  unfold js_gt. rewrite negb_false_iff. apply Qle_bool_iff.
Qed.

(** ** PlayerStats *)

Section StatPresentation.
Import PlayerStats.

(** C6.  The stat presentation is a total function of the lower-cased key and
    the value, whatever the key: with [k] the key as the engine's
    [toLowerCase] returns it, [hp]/[health] get the heart icon (health),
    [gold]/[coins] the coins icon (currency), [defense]/[armor] the shield
    (defense), [strength]/[attack] the zap icon (offense), every other key
    the generic user icon; two keys with the same lower-casing are presented
    alike, and so are, in particular, two keys of ASCII characters that
    differ only in the case of their letters.  For a health key with a
    numeric value the colour is the nominal green above 75 (and for
    [Infinity]), the caution orange from 26 to 75 and the critical red up to
    25 (and for [-Infinity] and [NaN]); a value that is not a number gets the
    nominal green. *)
Theorem stat_presentation_mapping
    (toLowerCase : string -> string) (key : string) (value : JSValue) :
  let k := toLowerCase key in
  (k = "hp" \/ k = "health" -> getStatIcon toLowerCase key = Heart) /\
  (k = "gold" \/ k = "coins" -> getStatIcon toLowerCase key = Coins) /\
  (k = "defense" \/ k = "armor" -> getStatIcon toLowerCase key = Shield) /\
  (k = "strength" \/ k = "attack" -> getStatIcon toLowerCase key = Zap) /\
  (k ∉ ["hp"; "health"; "gold"; "coins"; "defense"; "armor"; "strength"; "attack"] ->
   getStatIcon toLowerCase key = User) /\
  (k = "hp" \/ k = "health" ->
   (forall q, value = VNumber (Finite q) ->
      ((75 < q)%Q -> getStatColor toLowerCase key value = "#4caf50") /\
      ((26 <= q)%Q /\ (q <= 75)%Q -> getStatColor toLowerCase key value = "#ff9800") /\
      ((q <= 25)%Q -> getStatColor toLowerCase key value = "#f44336")) /\
   (value = VNumber PosInfinity -> getStatColor toLowerCase key value = "#4caf50") /\
   (value = VNumber NegInfinity -> getStatColor toLowerCase key value = "#f44336") /\
   (value = VNumber NaN -> getStatColor toLowerCase key value = "#f44336") /\
   ((forall n, value <> VNumber n) -> getStatColor toLowerCase key value = "#4caf50")) /\
  (forall key', toLowerCase key' = k ->
     getStatIcon toLowerCase key' = getStatIcon toLowerCase key /\
     getStatColor toLowerCase key' value = getStatColor toLowerCase key value) /\
  ((forall s, is_ascii s = true -> toLowerCase s = ascii_toLowerCase s) ->
   forall key', is_ascii key = true -> is_ascii key' = true ->
     ascii_toLowerCase key' = ascii_toLowerCase key ->
     getStatIcon toLowerCase key' = getStatIcon toLowerCase key /\
     getStatColor toLowerCase key' value = getStatColor toLowerCase key value).
Proof.
  intros k.
  assert (Hsame : forall key', toLowerCase key' = k ->
            getStatIcon toLowerCase key' = getStatIcon toLowerCase key /\
            getStatColor toLowerCase key' value = getStatColor toLowerCase key value).
  { intros key' H. unfold getStatIcon, getStatColor. rewrite H. split; reflexivity. }
  split; [|split; [|split; [|split; [|split; [|split; [|split]]]]]].
  - intros [H|H]; unfold getStatIcon; fold k; rewrite H; reflexivity.
  - intros [H|H]; unfold getStatIcon; fold k; rewrite H; reflexivity.
  - intros [H|H]; unfold getStatIcon; fold k; rewrite H; reflexivity.
  - intros [H|H]; unfold getStatIcon; fold k; rewrite H; reflexivity.
  - intros H. unfold getStatIcon. fold k.
    repeat rewrite not_elem_of_cons in H.
    destruct H as (H1 & H2 & H3 & H4 & H5 & H6 & H7 & H8 & _).
    apply String.eqb_neq in H1, H2, H3, H4, H5, H6, H7, H8.
    rewrite H1, H2, H3, H4, H5, H6, H7, H8. reflexivity.
  - intros H.
    assert (Hk : (String.eqb k "hp" || String.eqb k "health") = true)
      by (destruct H as [H|H]; rewrite H; reflexivity).
    split; [|split; [|split; [|split]]].
    + intros q ->. unfold getStatColor. fold k. rewrite Hk.
      split; [|split].
      * intros Hq. apply js_gt_finite in Hq. rewrite Hq. reflexivity.
      * intros [Hlo Hhi].
        assert (G1 : js_gt (Finite q) 75 = false) by (apply js_gt_finite_false; exact Hhi).
        assert (G2 : js_gt (Finite q) 25 = true).
        { apply js_gt_finite. eapply Qlt_le_trans; [|exact Hlo]. reflexivity. }
        rewrite G1, G2. reflexivity.
      * intros Hq.
        assert (G1 : js_gt (Finite q) 75 = false).
        { apply js_gt_finite_false. eapply Qle_trans; [exact Hq|]. discriminate. }
        assert (G2 : js_gt (Finite q) 25 = false) by (apply js_gt_finite_false; exact Hq).
        rewrite G1, G2. reflexivity.
    + intros ->. unfold getStatColor. fold k. rewrite Hk. reflexivity.
    + intros ->. unfold getStatColor. fold k. rewrite Hk. reflexivity.
    + intros ->. unfold getStatColor. fold k. rewrite Hk. reflexivity.
    + intros Hn. unfold getStatColor. fold k. rewrite Hk.
      destruct value as [n| | | | |]; [exfalso; exact (Hn n eq_refl)|..]; reflexivity.
  - exact Hsame.
  - intros Hengine key' Ha Ha' Heq. apply Hsame.
    unfold k. rewrite (Hengine key Ha), (Hengine key' Ha'). exact Heq.
Qed.

Lemma stat_presentation_mapping_witness :
  getStatIcon ascii_toLowerCase "HP" = Heart /\
  getStatIcon ascii_toLowerCase "Gold" = Coins /\
  getStatIcon ascii_toLowerCase "Armor" = Shield /\
  getStatIcon ascii_toLowerCase "ATTACK" = Zap /\
  getStatIcon ascii_toLowerCase "mana" = User /\
  getStatColor ascii_toLowerCase "HP" (VNumber (Finite 80)) = "#4caf50" /\
  getStatColor ascii_toLowerCase "Health" (VNumber (Finite 50)) = "#ff9800" /\
  getStatColor ascii_toLowerCase "health" (VNumber (Finite 10)) = "#f44336" /\
  getStatColor ascii_toLowerCase "hp" (VNumber NegInfinity) = "#f44336" /\
  getStatColor ascii_toLowerCase "hp" (VNumber NaN) = "#f44336" /\
  getStatColor ascii_toLowerCase "hp" (VString "full") = "#4caf50" /\
  getStatIcon ascii_toLowerCase "hEaLtH" = getStatIcon ascii_toLowerCase "HEALTH".
Proof.
  assert (H1 : getStatIcon ascii_toLowerCase "HP" = Heart).
  { destruct (stat_presentation_mapping ascii_toLowerCase "HP" VNull) as (Hi & _).
    apply Hi. left. reflexivity. }
  assert (H2 : getStatIcon ascii_toLowerCase "Gold" = Coins).
  { destruct (stat_presentation_mapping ascii_toLowerCase "Gold" VNull) as (_ & Hi & _).
    apply Hi. left. reflexivity. }
  assert (H3 : getStatIcon ascii_toLowerCase "Armor" = Shield).
  { destruct (stat_presentation_mapping ascii_toLowerCase "Armor" VNull)
      as (_ & _ & Hi & _).
    apply Hi. right. reflexivity. }
  assert (H4 : getStatIcon ascii_toLowerCase "ATTACK" = Zap).
  { destruct (stat_presentation_mapping ascii_toLowerCase "ATTACK" VNull)
      as (_ & _ & _ & Hi & _).
    apply Hi. right. reflexivity. }
  assert (H5 : getStatIcon ascii_toLowerCase "mana" = User).
  { destruct (stat_presentation_mapping ascii_toLowerCase "mana" VNull)
      as (_ & _ & _ & _ & Hi & _).
    apply Hi. vm_compute.
    intros H. repeat (apply elem_of_cons in H; destruct H as [H|H]; [discriminate H|]).
    inversion H. }
  assert (H6 : getStatColor ascii_toLowerCase "HP" (VNumber (Finite 80)) = "#4caf50").
  { destruct (stat_presentation_mapping ascii_toLowerCase "HP" (VNumber (Finite 80)))
      as (_ & _ & _ & _ & _ & Hcol & _).
    destruct Hcol as [Hnum _]; [left; reflexivity|].
    apply (Hnum 80%Q eq_refl). reflexivity. }
  assert (H7 : getStatColor ascii_toLowerCase "Health" (VNumber (Finite 50)) = "#ff9800").
  { destruct (stat_presentation_mapping ascii_toLowerCase "Health" (VNumber (Finite 50)))
      as (_ & _ & _ & _ & _ & Hcol & _).
    destruct Hcol as [Hnum _]; [right; reflexivity|].
    apply (Hnum 50%Q eq_refl). split; discriminate. }
  assert (H8 : getStatColor ascii_toLowerCase "health" (VNumber (Finite 10)) = "#f44336").
  { destruct (stat_presentation_mapping ascii_toLowerCase "health" (VNumber (Finite 10)))
      as (_ & _ & _ & _ & _ & Hcol & _).
    destruct Hcol as [Hnum _]; [right; reflexivity|].
    apply (Hnum 10%Q eq_refl). discriminate. }
  assert (H9 : getStatColor ascii_toLowerCase "hp" (VNumber NegInfinity) = "#f44336").
  { destruct (stat_presentation_mapping ascii_toLowerCase "hp" (VNumber NegInfinity))
      as (_ & _ & _ & _ & _ & Hcol & _).
    destruct Hcol as (_ & _ & Hneg & _); [left; reflexivity|].
    exact (Hneg eq_refl). }
  assert (H10 : getStatColor ascii_toLowerCase "hp" (VNumber NaN) = "#f44336").
  { destruct (stat_presentation_mapping ascii_toLowerCase "hp" (VNumber NaN))
      as (_ & _ & _ & _ & _ & Hcol & _).
    destruct Hcol as (_ & _ & _ & Hnan & _); [left; reflexivity|].
    exact (Hnan eq_refl). }
  assert (H11 : getStatColor ascii_toLowerCase "hp" (VString "full") = "#4caf50").
  { destruct (stat_presentation_mapping ascii_toLowerCase "hp" (VString "full"))
      as (_ & _ & _ & _ & _ & Hcol & _).
    destruct Hcol as (_ & _ & _ & _ & Hother); [left; reflexivity|].
    apply Hother. intros n. discriminate. }
  assert (H12 : getStatIcon ascii_toLowerCase "hEaLtH" = getStatIcon ascii_toLowerCase "HEALTH").
  { destruct (stat_presentation_mapping ascii_toLowerCase "HEALTH" VNull)
      as (_ & _ & _ & _ & _ & _ & _ & Hci).
    apply (Hci (fun s _ => eq_refl) "hEaLtH"); reflexivity. }
  exact (conj H1 (conj H2 (conj H3 (conj H4 (conj H5 (conj H6 (conj H7
           (conj H8 (conj H9 (conj H10 (conj H11 H12))))))))))).
Defined.

End StatPresentation.

(** ** History windowing *)

Section Windowing.

Lemma slice_negative {A} (k : nat) (l : list A) :
  (0 < k)%nat -> slice (- Z.of_nat k) l = drop (length l - k) l.
Proof.
  intros Hk. unfold slice.
  assert (E : (- Z.of_nat k <? 0)%Z = true) by (apply Z.ltb_lt; lia).
  rewrite E. f_equal. lia.
Qed.

(** [r.slice(start).reverse()] allocates one array and touches no other. *)
Lemma slice_reverse_fresh {A} (start : Z) (r : nat) (sigma : gmap nat (list A)) (h : list A) :
  sigma !! r = Some h ->
  exists r', slice_reverse start r sigma = (<[r' := reverse (slice start h)]> sigma, r')
             /\ sigma !! r' = None /\ r' <> r.
Proof.
  intros Hr. exists (fresh (dom sigma)).
  assert (Hfresh : sigma !! fresh (dom sigma) = None)
    by (apply not_elem_of_dom, is_fresh).
  split; [|split; [exact Hfresh | congruence]].
  unfold slice_reverse, store_slice, store_reverse, store_read.
  rewrite Hr. simpl. rewrite alter_insert_eq. reflexivity.
Qed.

(** The last [min L k] entries, most recent first. *)
Lemma window_lookup {A} (k : nat) (h : list A) (i : nat) :
  (i < Nat.min (length h) k)%nat ->
  reverse (drop (length h - k) h) !! i = h !! (length h - 1 - i)%nat.
Proof.
  intros Hi. rewrite reverse_lookup by (rewrite length_drop; lia).
  rewrite lookup_drop, length_drop. f_equal. lia.
Qed.

Lemma window_length {A} (k : nat) (h : list A) :
  length (reverse (drop (length h - k) h)) = Nat.min (length h) k.
Proof. rewrite length_reverse, length_drop. lia. Qed.

End Windowing.

Section WindowingClaims.

(** C7, as amended.  Rendering a history held at reference [r] never changes
    the array at [r] (nor any other existing array): the window is taken with
    [slice], which copies, and only the copy is reversed.  HistoryPanel.jsx
    shows the last [min L 10] entries, most recent first, numbered [L], [L-1],
    ..., and adds the overflow line with the count [L - 10] exactly when
    [L > 10].  The inline adventure log of the other screens shows the choices
    of the last [min L 5] entries, most recent first, and nothing else. *)
Theorem history_window_projection
    (sigma : gmap nat (list Entry.t)) (r : nat) (h : list Entry.t) :
  sigma !! r = Some h ->
  let L := length h in
  (exists sigma',
     HistoryPanel.render r sigma =
       (sigma',
        if (L =? 0)%nat then HistoryPanel.NoHistory
        else HistoryPanel.HistoryList
               (imap (fun i e => HistoryPanel.mkRow (L - i) e)
                     (reverse (drop (L - 10) h)))
               (if (10 <? L)%nat then Some (L - 10)%nat else None)) /\
     forall r0, is_Some (sigma !! r0) -> sigma' !! r0 = sigma !! r0) /\
  (exists sigma',
     adventureLog r sigma =
       (sigma',
        if (L =? 0)%nat then Placeholder
        else LogList (Entry.choice <$> reverse (drop (L - 5) h))) /\
     forall r0, is_Some (sigma !! r0) -> sigma' !! r0 = sigma !! r0) /\
  (forall k, length (reverse (drop (L - k) h)) = Nat.min L k) /\
  (forall k i, (i < Nat.min L k)%nat ->
     reverse (drop (L - k) h) !! i = h !! (L - 1 - i)%nat).
Proof.
  intros Hr L.
  assert (Hread : store_read r sigma = h) by (unfold store_read; rewrite Hr; reflexivity).
  assert (Hframe : forall r' (x : list Entry.t), sigma !! r' = None ->
            forall r0, is_Some (sigma !! r0) -> <[r' := x]> sigma !! r0 = sigma !! r0).
  { intros r' x Hnone r0 [y Hy]. apply lookup_insert_ne. congruence. }
  split; [|split; [|split]].
  - unfold HistoryPanel.render. rewrite Hread. fold L.
    destruct (L =? 0)%nat eqn:E0.
    + exists sigma. split; [reflexivity | intros; reflexivity].
    + destruct (slice_reverse_fresh (-10) r sigma h Hr) as (r' & Hsr & Hnone & Hne).
      rewrite Hsr. exists (<[r' := reverse (slice (-10) h)]> sigma).
      split; [|apply (Hframe r' _ Hnone)].
      unfold store_read. rewrite lookup_insert_eq. simpl.
      rewrite (slice_negative 10 h ltac:(lia) : slice (-10) h = _). reflexivity.
  - unfold adventureLog. rewrite Hread. fold L.
    destruct (L =? 0)%nat eqn:E0.
    + exists sigma. split; [reflexivity | intros; reflexivity].
    + destruct (slice_reverse_fresh (-5) r sigma h Hr) as (r' & Hsr & Hnone & Hne).
      rewrite Hsr. exists (<[r' := reverse (slice (-5) h)]> sigma).
      split; [|apply (Hframe r' _ Hnone)].
      unfold store_read. rewrite lookup_insert_eq. simpl.
      rewrite (slice_negative 5 h ltac:(lia) : slice (-5) h = _). reflexivity.
  - intros k. apply window_length.
  - intros k i Hi. apply window_lookup. exact Hi.
Qed.

(** Twelve entries through the window of ten: entries 12 down to 3, and two
    hidden. *)
Lemma history_window_projection_witness :
  let h := sample_entry <$> seq 1 12 in
  exists sigma',
    HistoryPanel.render 0 {[0%nat := h]} =
      (sigma',
       HistoryPanel.HistoryList
         ((fun n => HistoryPanel.mkRow n (sample_entry n)) <$>
            [12; 11; 10; 9; 8; 7; 6; 5; 4; 3]%nat)
         (Some 2%nat)) /\
    sigma' !! 0%nat = Some h.
Proof.
  intros h.
  assert (H0 : ({[0%nat := h]} : gmap nat (list Entry.t)) !! 0%nat = Some h)
    by (vm_compute; reflexivity).
  destruct (history_window_projection {[0%nat := h]} 0 h H0)
    as ((sigma' & Hrender & Hframe) & _).
  exists sigma'. split.
  - exact Hrender.
  - rewrite Hframe; [exact H0 | exists h; exact H0].
Defined.

(** C7 as stated fails on the window of five: the inline adventure log
    renders a 6-entry and a 7-entry history with the same last five entries
    to the same view, so the view carries no count of hidden entries (1 in
    one case, 2 in the other). *)
Lemma inline_log_hides_count :
  let hA := sample_entry <$> seq 2 6 in
  let hB := sample_entry <$> seq 1 7 in
  (adventureLog 0 {[0%nat := hA]}).2 = LogList [Some "G"; Some "F"; Some "E"; Some "D"; Some "C"] /\
  (adventureLog 0 {[0%nat := hB]}).2 = LogList [Some "G"; Some "F"; Some "E"; Some "D"; Some "C"] /\
  (length hA - 5 = 1)%nat /\ (length hB - 5 = 2)%nat /\
  ~ exists hidden : LogView -> nat,
      forall sigma r h, sigma !! r = Some h -> (5 < length h)%nat ->
        hidden (adventureLog r sigma).2 = (length h - 5)%nat.
Proof.
  intros hA hB.
  assert (EA : (adventureLog 0 {[0%nat := hA]}).2
               = LogList [Some "G"; Some "F"; Some "E"; Some "D"; Some "C"])
    by (vm_compute; reflexivity).
  assert (EB : (adventureLog 0 {[0%nat := hB]}).2
               = LogList [Some "G"; Some "F"; Some "E"; Some "D"; Some "C"])
    by (vm_compute; reflexivity).
  split; [exact EA|]. split; [exact EB|].
  split; [reflexivity|]. split; [reflexivity|].
  intros [hidden Hh].
  pose proof (Hh {[0%nat := hA]} 0%nat hA (lookup_singleton_eq _ _) ltac:(simpl; lia)) as H1.
  pose proof (Hh {[0%nat := hB]} 0%nat hB (lookup_singleton_eq _ _) ltac:(simpl; lia)) as H2.
  rewrite EA in H1. rewrite EB in H2. rewrite H1 in H2. discriminate H2.
Qed.

End WindowingClaims.

(** ** The game screen with the demo fallback *)

Section WorkingGameScreenClaims.
Import WorkingGameScreen.

Lemma truthy_Some (sid : string) : truthy (Some sid) = true <-> sid <> EmptyString.
Proof.
  unfold truthy. rewrite negb_true_iff. apply String.eqb_neq.
Qed.

(** The live branch of [makeChoice] up to the [await]. *)
Lemma makeChoice_request_live (s : State) (g : Game.t) (sid : string) (choiceIndex now : Z) :
  demoMode s = false -> sessionId s = Some sid -> sid <> EmptyString ->
  gameState s = Some g ->
  makeChoice_request s choiceIndex now =
    Await (setHistory
             (history s ++
              [Entry.mk (Game.story g) (index (Game.choices g) choiceIndex) now])
             (setIsLoading true s))
          (MakeChoice sid choiceIndex).
Proof.
  intros Hd Hs Hne Hg. unfold makeChoice_request.
  rewrite Hd, Hs, Hg. apply String.eqb_neq in Hne. rewrite Hne. reflexivity.
Qed.

(** The demo branch of [makeChoice]. *)
Lemma makeChoice_request_demo (s : State) (g : Game.t) (choiceIndex now : Z) :
  demoMode s = true -> gameState s = Some g ->
  makeChoice_request s choiceIndex now =
    Return (setGameState
              (Some (Game.mk
                 ("You chose: " ++ dquote ++
                  interpolate (index (Game.choices g) choiceIndex) ++ dquote ++
                  newline ++ newline ++ "The adventure continues in demo mode...")
                 [ "Continue exploring"; "Check your surroundings";
                   "Try something different" ]
                 (Game.stats g)))
              (setHistory
                 (history s ++
                  [Entry.mk (Game.story g) (index (Game.choices g) choiceIndex) now])
                 s)).
Proof.
  intros Hd Hg. unfold makeChoice_request. rewrite Hd, Hg. reflexivity.
Qed.

(** C9.  In the screen with the demo fallback, a demo-mode [makeChoice] at a
    valid index returns at once (whatever the backend would have answered),
    replaces the story by the "You chose" text and the choices by the three
    fixed ones, and hands the stats object over unchanged. *)
Theorem demo_choice_keeps_stats
    (s : State) (g : Game.t) (choiceIndex now : Z) (o : Outcome) :
  demoMode s = true -> gameState s = Some g ->
  (0 <= choiceIndex < Z.of_nat (length (Game.choices g)))%Z ->
  exists g' chosen,
    makeChoice_request s choiceIndex now = Return (makeChoice s choiceIndex now o) /\
    gameState (makeChoice s choiceIndex now o) = Some g' /\
    Game.stats g' = Game.stats g /\
    Game.choices g !! Z.to_nat choiceIndex = Some chosen /\
    Game.story g' =
      "You chose: " ++ dquote ++ chosen ++ dquote ++ newline ++ newline ++
      "The adventure continues in demo mode..." /\
    Game.choices g' =
      [ "Continue exploring"; "Check your surroundings"; "Try something different" ].
Proof.
  intros Hd Hg Hidx.
  destruct (lookup_lt_is_Some_2 (Game.choices g) (Z.to_nat choiceIndex)) as [c Hc]; [lia|].
  assert (Hi : index (Game.choices g) choiceIndex = Some c).
  { unfold index. destruct (choiceIndex <? 0)%Z eqn:E; [apply Z.ltb_lt in E; lia|exact Hc]. }
  eexists _, c.
  unfold makeChoice. rewrite (makeChoice_request_demo s g choiceIndex now Hd Hg).
  rewrite Hi. simpl.
  split; [reflexivity|]. split; [reflexivity|]. split; [reflexivity|].
  split; [exact Hc|]. split; reflexivity.
Qed.

Lemma demo_choice_keeps_stats_witness :
  let s := startNewGame initial (Rejected None) in
  exists g',
    gameState (makeChoice s 1 1000 (Rejected None)) = Some g' /\
    Game.stats g' = Game.stats demoData /\
    Game.choices g' =
      [ "Continue exploring"; "Check your surroundings"; "Try something different" ].
Proof.
  intros s.
  destruct (demo_choice_keeps_stats s demoData 1 1000 (Rejected None))
    as (g' & chosen & _ & Hg & Hs & _ & _ & Hc).
  - reflexivity.
  - reflexivity.
  - simpl. lia.
  - exists g'. exact (conj Hg (conj Hs Hc)).
Defined.



Lemma elem_of_choiceButtons (s : State) (b : Button) :
  b ∈ choiceButtons s ->
  exists g, gameState s = Some g /\ disabled b = isLoading s /\
            Game.choices g !! onClick b = Some (text b).
Proof.
  unfold choiceButtons. destruct (gameState s) as [g|]; [|intros H; inversion H].
  intros H. apply list_elem_of_lookup in H. destruct H as [i Hi].
  rewrite list_lookup_imap in Hi.
  destruct (Game.choices g !! i) as [c|] eqn:Ec; [|discriminate Hi].
  injection Hi as <-. exists g. simpl. auto.
Qed.

(** C4, as amended.  While [isLoading] holds every choice button is rendered
    disabled, so a click on one changes nothing and posts nothing.  That is
    the only guard: [makeChoice] itself, in this screen and in App.js, goes on
    whatever the flag says and has no busy result.  And the flag is not "a
    request is in flight": New Adventure is never disabled and every
    settlement clears the flag, whatever else is pending; when the flag is
    down a click on a choice is accepted (entry appended, request posted)
    next to whatever requests are still pending. *)
Theorem choice_while_loading (w : World) :
  (isLoading (screen w) = true ->
     (forall b, b ∈ choiceButtons (screen w) ->
        disabled b = true /\ forall now, click b (screen w) now = Return (screen w)) /\
     (forall i now, ui_step w (ClickChoice i now) = w)) /\
  (isLoading (screen w) = false -> demoMode (screen w) = false ->
   forall g sid i c now,
     gameState (screen w) = Some g ->
     sessionId (screen w) = Some sid -> sid <> EmptyString ->
     Game.choices g !! i = Some c ->
     ui_step w (ClickChoice i now) =
       mkWorld
         (setHistory (history (screen w) ++ [Entry.mk (Game.story g) (Some c) now])
                     (setIsLoading true (screen w)))
         (pending w ++ [MakeChoice sid (Z.of_nat i)])) /\
  (forall k o req, pending w !! k = Some req ->
     isLoading (screen (ui_step w (Settle k o))) = false /\
     pending (ui_step w (Settle k o)) = delete k (pending w)) /\
  (initializing (screen w) = false ->
     ui_step w ClickNewAdventure =
       mkWorld (setDemoMode false (setError None (setIsLoading true (screen w))))
               (pending w ++ [StartGame "Adventurer"])) /\
  (forall (s : State) g sid choiceIndex now,
     demoMode s = false -> sessionId s = Some sid -> sid <> EmptyString ->
     gameState s = Some g ->
     makeChoice_request s choiceIndex now =
       Await (setHistory
                (history s ++
                 [Entry.mk (Game.story g) (index (Game.choices g) choiceIndex) now])
                (setIsLoading true s))
             (MakeChoice sid choiceIndex)) /\
  (forall (a : App.State) sid choiceIndex,
     App.sessionId a = Some sid -> sid <> EmptyString ->
     App.makeChoice_request a choiceIndex =
       Await (App.setIsLoading true a) (MakeChoice sid choiceIndex)).
Proof.
  split; [|split; [|split; [|split; [|split]]]].
  - intros Hl.
    assert (Hui : forall b, b ∈ choiceButtons (screen w) ->
              disabled b = true /\ forall now, click b (screen w) now = Return (screen w)).
    { intros b Hb. destruct (elem_of_choiceButtons _ b Hb) as (g & _ & Hdis & _).
      rewrite Hl in Hdis. split; [exact Hdis|].
      intros now. unfold click. rewrite Hdis. reflexivity. }
    split; [exact Hui|].
    intros i now. unfold ui_step.
    destruct (choiceButtons (screen w) !! i) as [b|] eqn:Hb; [|reflexivity].
    destruct (Hui b) as [_ Hclick]; [apply list_elem_of_lookup; eauto|].
    rewrite Hclick. destruct w; reflexivity.
  - intros Hl Hd g sid i c now Hg Hs Hne Hc. unfold ui_step, choiceButtons.
    rewrite Hg, list_lookup_imap, Hc. simpl. unfold click. simpl. rewrite Hl.
    rewrite (makeChoice_request_live _ g sid _ _ Hd Hs Hne Hg).
    unfold index.
    assert (E : (Z.of_nat i <? 0)%Z = false) by (apply Z.ltb_ge; lia).
    rewrite E, Nat2Z.id, Hc. reflexivity.
  - intros k o req Hk. unfold ui_step. rewrite Hk.
    destruct req; simpl; split; reflexivity.
  - intros Hi. unfold ui_step. rewrite Hi. reflexivity.
  - intros s g sid choiceIndex now Hd Hs Hne Hg.
    apply makeChoice_request_live; assumption.
  - intros a sid choiceIndex Hs Hne. unfold App.makeChoice_request. rewrite Hs.
    apply String.eqb_neq in Hne. rewrite Hne. reflexivity.
Qed.

Lemma choice_while_loading_witness :
  let d := Response.mk true (Some "s-1") "A door." ["Open"; "Knock"; "Leave"] ∅ None in
  let w0 := ui_step mounted (Settle 0 (Resolved (Some d))) in
  let w1 := ui_step w0 (ClickChoice 0 1000) in
  w1 = mkWorld (setHistory [Entry.mk "A door." (Some "Open") 1000]
                  (setIsLoading true (screen w0)))
               [MakeChoice "s-1" 0] /\
  ui_step w1 (ClickChoice 1 1001) = w1 /\
  isLoading (screen (ui_step w1 (Settle 0 (Rejected None)))) = false.
Proof.
  intros d w0 w1.
  destruct (choice_while_loading w0) as (_ & Hfree & _).
  pose proof (Hfree eq_refl eq_refl (Game.mk "A door." ["Open"; "Knock"; "Leave"] ∅)
                "s-1" 0%nat "Open" 1000%Z eq_refl eq_refl ltac:(discriminate) eq_refl)
    as H1.
  destruct (choice_while_loading w1) as (Hgate & _ & Hsettle & _).
  destruct (Hgate eq_refl) as [_ Hnoop].
  destruct (Hsettle 0%nat (Rejected None) (MakeChoice "s-1" 0) eq_refl) as [Hflag _].
  split; [exact H1|]. split; [exact (Hnoop 1%nat 1001%Z) | exact Hflag].
Defined.

(** C4 as stated fails: a choice is accepted while the request of an earlier
    choice is still in flight.  With choice 0 pending the buttons are
    disabled; New Adventure is not, and when its start settles the flag is
    cleared although the first request is still pending: the next click on a
    choice is not turned away as busy, it appends a history entry and posts a
    second request next to the first. *)
Lemma choice_accepted_with_request_in_flight :
  let d1 := Response.mk true (Some "s-1") "A door." ["Open"; "Knock"; "Leave"] ∅ None in
  let d2 := Response.mk true (Some "s-2") "A cave." ["Dig"; "Sing"; "Sleep"] ∅ None in
  let w0 := ui_step mounted (Settle 0 (Resolved (Some d1))) in
  let w1 := ui_step w0 (ClickChoice 0 1000) in
  let w2 := ui_run w1 [ClickNewAdventure; Settle 1 (Resolved (Some d2))] in
  let w3 := ui_step w2 (ClickChoice 1 1001) in
  (pending w1 = [MakeChoice "s-1" 0] /\ isLoading (screen w1) = true) /\
  (pending w2 = [MakeChoice "s-1" 0] /\ isLoading (screen w2) = false /\
   history (screen w2) = []) /\
  (pending w3 = [MakeChoice "s-1" 0; MakeChoice "s-2" 1] /\
   history (screen w3) = [Entry.mk "A cave." (Some "Sing") 1001] /\
   length (history (screen w3)) <> length (history (screen w2))).
Proof.
  intros d1 d2 w0 w1 w2 w3.
  split; [split; reflexivity|].
  split; [split; [reflexivity | split; reflexivity]|].
  split; [reflexivity|]. split; [reflexivity|]. simpl. discriminate.
Qed.

(** *** Starting a game *)

(** C1, as amended.  [startNewGame] of the screen with the demo fallback
    always completes in live or demo mode.  When the call fails (rejected,
    no data, or [success] false) the screen shows the built-in demo data:
    three choices, a non-empty story, no error.  When it succeeds the screen
    shows the story and choices of the response as they are, without checking
    them.  [startNewGame] of App.js has no fallback: on failure it goes back
    to the welcome screen and leaves story and choices as they were. *)
Theorem startNewGame_completes (s : State) (o : Outcome) :
  let s' := startNewGame s o in
  (mode s' = Live \/ mode s' = Demo) /\
  (ok o = None ->
     mode s' = Demo /\ gameState s' = Some demoData /\ error s' = None /\
     length (Game.choices demoData) = 3%nat /\
     (0 < String.length (Game.story demoData))%nat) /\
  (forall d, ok o = Some d ->
     mode s' = Live /\
     gameState s' =
       Some (Game.mk (Response.story d) (Response.choices d) (Response.player_stats d))) /\
  (forall (a : App.State) (playerName : string),
     let a' := App.startNewGame a playerName App.ApiRejected in
     App.gameState a' = App.welcome /\
     App.currentStory a' = App.currentStory a /\
     App.currentChoices a' = App.currentChoices a /\
     App.isLoading a' = false) /\
  (forall (a : App.State) (playerName : string) (r : App.ApiResponse),
     let a' := App.startNewGame a playerName (App.ApiResolved r) in
     App.gameState a' = App.playing /\
     App.currentStory a' = App.story r /\
     App.currentChoices a' = App.choices r /\
     App.isLoading a' = false).
Proof.
  intros s'. subst s'. unfold startNewGame, startNewGame_resume, mode.
  destruct (ok o) as [d|] eqn:E; simpl.
  - split; [left; reflexivity|]. split; [discriminate|].
    split; [|split; intros; repeat split].
    intros d' Hd. injection Hd as <-. split; reflexivity.
  - split; [right; reflexivity|].
    split; [intros _; repeat split; simpl; lia|].
    split; [discriminate|]. split; intros; repeat split.
Qed.

Lemma startNewGame_completes_witness :
  let d := Response.mk true (Some "s-1") "A door." ["Open"; "Knock"; "Leave"] ∅ None in
  (mode (startNewGame initial (Rejected None)) = Demo /\
   gameState (startNewGame initial (Rejected None)) = Some demoData) /\
  (mode (startNewGame initial (Resolved (Some d))) = Live /\
   gameState (startNewGame initial (Resolved (Some d)))
     = Some (Game.mk "A door." ["Open"; "Knock"; "Leave"] ∅)).
Proof.
  intros d.
  destruct (startNewGame_completes initial (Rejected None)) as (_ & Hfail & _).
  destruct (Hfail eq_refl) as (Hm & Hg & _).
  destruct (startNewGame_completes initial (Resolved (Some d))) as (_ & _ & Hok & _).
  exact (conj (conj Hm Hg) (Hok d eq_refl)).
Defined.

(** C1 as stated fails twice.  A successful answer that carries two choices
    and an empty story is shown as it is, so the choices are not three and the
    story is empty.  And in App.js a failed start from the initial state ends
    on the welcome screen with no story and no choices: neither live nor
    demo. *)
Lemma startNewGame_can_leave_story_empty :
  let d := Response.mk true (Some "s-1") EmptyString ["Open"; "Knock"] ∅ None in
  let s' := startNewGame initial (Resolved (Some d)) in
  let a' := App.startNewGame App.initial "Aria" App.ApiRejected in
  (gameState s' = Some (Game.mk EmptyString ["Open"; "Knock"] ∅) /\
   mode s' = Live /\
   length ["Open"; "Knock"] <> 3%nat /\
   String.length EmptyString = 0%nat) /\
  (App.gameState a' = App.welcome /\
   App.currentStory a' = EmptyString /\
   App.currentChoices a' = [] /\
   App.sessionId a' = None).
Proof.
  intros d s' a'.
  split.
  - split; [reflexivity|]. split; [reflexivity|]. split; [discriminate | reflexivity].
  - split; [reflexivity|]. split; [reflexivity|]. split; reflexivity.
Qed.

(** C8, as amended.  A start always ends with an empty history, and on
    success [sessionId] is whatever id the response carries (the screen
    neither checks that there is one nor that it is new).  The screen is then
    live provided the demo flag is down when the answer arrives, as it is
    when nothing else settles between the start's request and its answer.
    The demo fallback does not assign [sessionId]: it is null afterwards
    exactly when it was null before, and it is not used, since in demo mode
    [makeChoice] returns before it reads the id and posts nothing. *)
Theorem startNewGame_session (s : State) (o : Outcome) :
  (let s' := startNewGame s o in
   history s' = [] /\
   (forall d, ok o = Some d ->
      mode s' = Live /\ sessionId s' = Response.session_id d) /\
   (ok o = None ->
      mode s' = Demo /\ sessionId s' = sessionId s /\
      forall choiceIndex now, exists s2,
        makeChoice_request s' choiceIndex now = Return s2 /\
        sessionId s2 = sessionId s /\ mode s2 = Demo)) /\
  (let s' := startNewGame_resume s o in
   history s' = [] /\ isLoading s' = false /\
   (forall d, ok o = Some d ->
      sessionId s' = Response.session_id d /\
      (demoMode s = false -> mode s' = Live)) /\
   (ok o = None ->
      mode s' = Demo /\ sessionId s' = sessionId s /\
      forall choiceIndex now, exists s2,
        makeChoice_request s' choiceIndex now = Return s2 /\
        sessionId s2 = sessionId s /\ mode s2 = Demo)).
Proof.
  split.
  - intros s'. subst s'. unfold startNewGame, startNewGame_resume, mode.
    destruct (ok o) as [d|] eqn:E; simpl.
    + split; [reflexivity|]. split; [|discriminate].
      intros d' Hd. injection Hd as <-. split; reflexivity.
    + split; [reflexivity|]. split; [discriminate|].
      intros _. split; [reflexivity|]. split; [reflexivity|].
      intros choiceIndex now. eexists. split; [reflexivity|]. split; reflexivity.
  - intros s'. subst s'. unfold startNewGame_resume, mode.
    destruct (ok o) as [d|] eqn:E; simpl.
    + split; [reflexivity|]. split; [reflexivity|]. split; [|discriminate].
      intros d' Hd. injection Hd as <-. split; [reflexivity|].
      intros Hdemo. rewrite Hdemo. reflexivity.
    + split; [reflexivity|]. split; [reflexivity|]. split; [discriminate|].
      intros _. split; [reflexivity|]. split; [reflexivity|].
      intros choiceIndex now. eexists. split; [reflexivity|]. split; reflexivity.
Qed.

Lemma startNewGame_session_witness :
  let d := Response.mk true (Some "s-1") "A door." ["Open"; "Knock"; "Leave"] ∅ None in
  (sessionId (startNewGame initial (Resolved (Some d))) = Some "s-1" /\
   mode (startNewGame initial (Resolved (Some d))) = Live) /\
  (sessionId (startNewGame initial (Rejected None)) = None /\
   mode (startNewGame initial (Rejected None)) = Demo) /\
  (sessionId (startNewGame_resume (screen mounted) (Resolved (Some d))) = Some "s-1" /\
   mode (startNewGame_resume (screen mounted) (Resolved (Some d))) = Live).
Proof.
  intros d.
  destruct (startNewGame_session initial (Resolved (Some d))) as ((_ & Hok & _) & _).
  destruct (Hok d eq_refl) as [Hm Hs].
  destruct (startNewGame_session initial (Rejected None)) as ((_ & _ & Hfail) & _).
  destruct (Hfail eq_refl) as (Hm' & Hs' & _).
  destruct (startNewGame_session (screen mounted) (Resolved (Some d)))
    as (_ & _ & _ & Hsettle & _).
  destruct (Hsettle d eq_refl) as [Hs2 Hm2].
  exact (conj (conj Hs Hm) (conj (conj Hs' Hm') (conj Hs2 (Hm2 eq_refl)))).
Defined.

(** C8 as stated fails in both directions.  A new game that falls back to
    demo mode after a live session keeps that session's id: demo mode with a
    non-null [sessionId].  And a successful answer without an id gives live
    mode with a null [sessionId]. *)
Lemma demo_fallback_keeps_previous_session_id :
  let d := Response.mk true (Some "s-1") "A door." ["Open"; "Knock"; "Leave"] ∅ None in
  let no_id := Response.mk true None "A door." ["Open"; "Knock"; "Leave"] ∅ None in
  let live := startNewGame initial (Resolved (Some d)) in
  let again := startNewGame live (Rejected None) in
  (sessionId live = Some "s-1" /\ mode live = Live) /\
  (mode again = Demo /\ sessionId again = Some "s-1" /\ sessionId again <> None) /\
  (mode (startNewGame initial (Resolved (Some no_id))) = Live /\
   sessionId (startNewGame initial (Resolved (Some no_id))) = None).
Proof.
  intros d no_id live again.
  split; [split; reflexivity|].
  split; [|split; reflexivity].
  split; [reflexivity|]. split; [reflexivity | discriminate].
Qed.

(** *** The history over a run of calls *)

(** A call that gets past the guards appends exactly one entry, built from
    the game on screen when the call is made, and leaves the screen in a
    state that accepts the next call. *)
Lemma makeChoice_accepted (s : State) (choiceIndex now : Z) (o : Outcome) :
  accepts s = true ->
  exists g,
    gameState s = Some g /\
    history (makeChoice s choiceIndex now o) =
      (history s ++
       [Entry.mk (Game.story g) (index (Game.choices g) choiceIndex) now])%list /\
    accepts (makeChoice s choiceIndex now o) = true.
Proof.
  unfold accepts. intros Hacc.
  destruct (gameState s) as [g|] eqn:Hg; [|discriminate Hacc].
  exists g. split; [reflexivity|].
  destruct (demoMode s) eqn:Hd.
  - unfold makeChoice. rewrite (makeChoice_request_demo s g _ _ Hd Hg). simpl.
    split; [reflexivity | rewrite Hd; reflexivity].
  - simpl in Hacc. destruct (sessionId s) as [sid|] eqn:Hs; [|discriminate Hacc].
    pose proof (proj1 (truthy_Some sid) Hacc) as Hne.
    unfold makeChoice. rewrite (makeChoice_request_live s g sid _ _ Hd Hs Hne Hg).
    unfold makeChoice_resume.
    destruct (ok o); simpl; rewrite ?Hg, Hd, Hs; simpl;
      (split; [reflexivity | exact Hacc]).
Qed.

Lemma run_snoc (s : State) (calls : list Call) (c : Call) :
  run s (calls ++ [c]) = makeChoice (run s calls) (picked c) (at_time c) (settles c).
Proof. unfold run. rewrite fold_left_app. reflexivity. Qed.

Lemma run_app (s : State) (calls1 calls2 : list Call) :
  run s (calls1 ++ calls2) = run (run s calls1) calls2.
Proof. unfold run. apply fold_left_app. Qed.

Lemma run_accepts (s : State) (calls : list Call) :
  accepts s = true -> accepts (run s calls) = true.
Proof.
  revert s. induction calls as [|c calls IH]; intros s Hacc; [exact Hacc|].
  simpl. apply IH.
  destruct (makeChoice_accepted s (picked c) (at_time c) (settles c) Hacc)
    as (g & _ & _ & H). exact H.
Qed.

(** Entries are only ever appended: what a run has recorded stays in place,
    unchanged, whatever is called afterwards. *)
Lemma run_history_prefix (s : State) (calls : list Call) :
  accepts s = true ->
  exists added, history (run s calls) = (history s ++ added)%list /\
                length added = length calls.
Proof.
  revert s. induction calls as [|c calls IH]; intros s Hacc.
  - exists []. rewrite app_nil_r. split; reflexivity.
  - destruct (makeChoice_accepted s (picked c) (at_time c) (settles c) Hacc)
      as (g & _ & Hh & Hacc').
    destruct (IH _ Hacc') as (added & Hadd & Hlen).
    simpl. fold (run (makeChoice s (picked c) (at_time c) (settles c)) calls).
    rewrite Hadd, Hh, <- app_assoc. eexists. split; [reflexivity|].
    simpl. rewrite Hlen. reflexivity.
Qed.

Lemma app_run_history (a : App.State) (calls : list App.Call) :
  truthy (App.sessionId a) = true ->
  App.storyHistory (App.run a calls) =
    (App.storyHistory a ++ concat (App.items_of <$> calls))%list /\
  App.sessionId (App.run a calls) = App.sessionId a.
Proof.
  revert a. induction calls as [|c calls IH]; intros a Hsid.
  - simpl. rewrite app_nil_r. split; reflexivity.
  - assert (Hstep :
      App.storyHistory (App.makeChoice a (App.picked c) (App.settles c)
                          (App.at_time1 c) (App.at_time2 c))
        = (App.storyHistory a ++ App.items_of c)%list /\
      App.sessionId (App.makeChoice a (App.picked c) (App.settles c)
                       (App.at_time1 c) (App.at_time2 c)) = App.sessionId a).
    { unfold App.makeChoice, App.makeChoice_request, App.items_of.
      destruct (App.sessionId a) as [sid|] eqn:Hs; [|discriminate Hsid].
      apply truthy_Some, String.eqb_neq in Hsid. rewrite Hsid.
      destruct (App.settles c) as [response|]; simpl.
      - rewrite <- app_assoc. split; [reflexivity | exact Hs].
      - rewrite app_nil_r. split; [reflexivity | exact Hs]. }
    destruct Hstep as [Hh Hs].
    simpl.
    fold (App.run (App.makeChoice a (App.picked c) (App.settles c)
                     (App.at_time1 c) (App.at_time2 c)) calls).
    destruct (IH (App.makeChoice a (App.picked c) (App.settles c)
                    (App.at_time1 c) (App.at_time2 c))) as [IHh IHs];
      [rewrite Hs; exact Hsid|].
    rewrite IHh, IHs, Hh, Hs, <- app_assoc. split; reflexivity.
Qed.

(** C3, as amended.  In the screen with the demo fallback, from a freshly
    started game that accepts choices, N calls of [makeChoice] (in demo mode,
    or in live mode whether the request succeeds or fails) leave exactly N
    history entries, and entry i holds the story and the choice text at the
    picked index as they were on screen when call i was made; later calls do
    not touch it.  App.js keeps a different log: each successful call appends
    two items, the player's action and the narrator's answer, both taken from
    the response, and a failed call appends none. *)
Theorem history_records_offered_choices
    (s0 : State) (o0 : Outcome) (calls : list Call) :
  let s := startNewGame s0 o0 in
  accepts s = true ->
  length (history (run s calls)) = length calls /\
  (forall i c, calls !! i = Some c ->
     exists g,
       gameState (run s (take i calls)) = Some g /\
       history (run s calls) !! i =
         Some (Entry.mk (Game.story g) (index (Game.choices g) (picked c)) (at_time c)) /\
       forall more,
         history (run s (calls ++ more)) !! i = history (run s calls) !! i) /\
  (forall (a : App.State) (acalls : list App.Call),
     truthy (App.sessionId a) = true -> App.storyHistory a = [] ->
     App.storyHistory (App.run a acalls) = concat (App.items_of <$> acalls)).
Proof.
  intros s Hacc.
  assert (Hempty : history s = []).
  { unfold s, startNewGame, startNewGame_resume. destruct (ok o0); reflexivity. }
  split; [|split].
  - destruct (run_history_prefix s calls Hacc) as (added & Hadd & Hlen).
    rewrite Hadd, Hempty. simpl. exact Hlen.
  - intros i c Hc.
    pose proof (take_drop_middle calls i c Hc) as Hsplit.
    pose proof (run_accepts s (take i calls) Hacc) as Hacc_i.
    destruct (makeChoice_accepted (run s (take i calls)) (picked c) (at_time c)
                (settles c) Hacc_i) as (g & Hg & Hh & Hacc').
    destruct (run_history_prefix s (take i calls) Hacc) as (before & Hbefore & Hlen).
    rewrite Hempty in Hbefore. simpl in Hbefore.
    assert (Hi : length before = i).
    { rewrite Hlen, length_take. apply lookup_lt_Some in Hc. lia. }
    assert (Hat : forall rest,
              history (run s (take i calls ++ c :: rest)) !! i =
                Some (Entry.mk (Game.story g) (index (Game.choices g) (picked c))
                               (at_time c))).
    { intros rest.
      replace (take i calls ++ c :: rest)%list
        with ((take i calls ++ [c]) ++ rest)%list by (rewrite <- app_assoc; reflexivity).
      rewrite run_app, run_snoc.
      destruct (run_history_prefix _ rest Hacc') as (after & Hafter & _).
      rewrite Hafter, Hh, Hbefore, <- app_assoc. simpl.
      rewrite <- Hi. apply list_lookup_middle. reflexivity. }
    exists g. split; [exact Hg|]. split.
    + rewrite <- Hsplit at 1. apply Hat.
    + intros more. rewrite <- Hsplit. rewrite <- app_assoc. simpl.
      rewrite !Hat. reflexivity.
  - intros a acalls Hsid Hnil.
    destruct (app_run_history a acalls Hsid) as [Hh _].
    rewrite Hh, Hnil. reflexivity.
Qed.

Lemma history_records_offered_choices_witness :
  let s := startNewGame initial (Rejected None) in
  let calls := [mkCall 1 1000 (Rejected None); mkCall 0 1001 (Rejected None)] in
  length (history (run s calls)) = 2%nat /\
  history (run s calls) !! 0%nat =
    Some (Entry.mk (Game.story demoData) (Some "Examine the entrance for traps") 1000) /\
  exists g,
    gameState (run s [mkCall 1 1000 (Rejected None)]) = Some g /\
    history (run s calls) !! 1%nat =
      Some (Entry.mk (Game.story g) (Some "Continue exploring") 1001).
Proof.
  intros s calls.
  destruct (history_records_offered_choices initial (Rejected None) calls eq_refl)
    as (Hlen & Hentry & _).
  destruct (Hentry 0%nat (mkCall 1 1000 (Rejected None)) eq_refl) as (g0 & Hg0 & H0 & _).
  destruct (Hentry 1%nat (mkCall 0 1001 (Rejected None)) eq_refl) as (g1 & Hg1 & H1 & _).
  injection Hg0 as <-.
  split; [exact Hlen|]. split; [exact H0|].
  pose proof Hg1 as Hg1'. injection Hg1' as <-.
  eexists. split; [exact Hg1 | exact H1].
Defined.

(** C3 as stated fails in App.js: one successful [makeChoice] leaves two
    items in the history, not one, and neither holds the choice text that was
    offered ("Knock"); both come from the response. *)
Lemma app_history_has_two_items_per_choice :
  let r0 := App.mkResponse (Some "s-1") "A door." ["Open"; "Knock"; "Leave"] None EmptyString in
  let r1 := App.mkResponse (Some "s-1") "It opens." ["Enter"; "Wait"; "Run"] None
                           "You rap on the wood" in
  let a := App.startNewGame App.initial "Aria" (App.ApiResolved r0) in
  let a' := App.makeChoice a 1 (App.ApiResolved r1) 1000 1001 in
  App.currentChoices a = ["Open"; "Knock"; "Leave"] /\
  App.storyHistory a = [] /\
  App.storyHistory a' =
    [ App.player "You rap on the wood" 1000;
      App.dm "It opens." ["Enter"; "Wait"; "Run"] 1001 ] /\
  length (App.storyHistory a') <> 1%nat.
Proof.
  intros r0 r1 a a'.
  split; [reflexivity|]. split; [reflexivity|]. split; [reflexivity|].
  simpl. discriminate.
Qed.

End WorkingGameScreenClaims.

(** ** App.js *)

Section AppClaims.

(** C10.  In App.js, [makeChoice] with a null [sessionId] returns at once:
    whatever the index and whatever the backend would answer, no request is
    posted and the state (history, story, choices, stats, loading flag and
    the rest) is the one before the call. *)
Theorem app_makeChoice_without_session (a : App.State) (choiceIndex : Z) :
  App.sessionId a = None ->
  App.makeChoice_request a choiceIndex = Return a /\
  (forall o now1 now2, App.makeChoice a choiceIndex o now1 now2 = a) /\
  (forall o now1 now2,
     let a' := App.makeChoice a choiceIndex o now1 now2 in
     App.storyHistory a' = App.storyHistory a /\
     App.currentStory a' = App.currentStory a /\
     App.currentChoices a' = App.currentChoices a /\
     App.playerStats a' = App.playerStats a /\
     App.isLoading a' = App.isLoading a).
Proof.
  intros Hs.
  assert (Hreq : App.makeChoice_request a choiceIndex = Return a).
  { unfold App.makeChoice_request. rewrite Hs. reflexivity. }
  assert (Hcall : forall o now1 now2, App.makeChoice a choiceIndex o now1 now2 = a).
  { intros o now1 now2. unfold App.makeChoice. rewrite Hreq. reflexivity. }
  split; [exact Hreq|]. split; [exact Hcall|].
  intros o now1 now2 a'. subst a'. rewrite Hcall.
  repeat (split; [reflexivity|]). reflexivity.
Qed.

Lemma app_makeChoice_without_session_witness :
  let r := App.mkResponse (Some "s-1") "It opens." ["Enter"; "Wait"; "Run"] None
                          "You rap on the wood" in
  App.makeChoice_request App.initial 1 = Return App.initial /\
  App.makeChoice App.initial 1 (App.ApiResolved r) 1000 1001 = App.initial.
Proof.
  intros r.
  destruct (app_makeChoice_without_session App.initial 1 eq_refl) as (Hreq & Hcall & _).
  exact (conj Hreq (Hcall (App.ApiResolved r) 1000%Z 1001%Z)).
Defined.

End AppClaims.

(** * Further properties of the components *)

(** ** Stat labels *)

Section StatLabels.
Import PlayerStats.

Lemma upper_ascii_idempotent (c : ascii) : upper_ascii (upper_ascii c) = upper_ascii c.
Proof. destruct c as [[] [] [] [] [] [] [] []]; reflexivity. Qed.

Lemma replace_underscores_length (s : string) :
  String.length (replace_underscores s) = String.length s.
Proof. induction s as [|c rest IH]; simpl; [reflexivity | rewrite IH; reflexivity]. Qed.

Lemma replace_underscores_get (s : string) (i : nat) :
  String.get i (replace_underscores s) =
    (fun c => if Ascii.eqb c "_"%char then " "%char else c) <$> String.get i s.
Proof.
  revert i. induction s as [|c rest IH]; intros i; simpl; [reflexivity|].
  destruct i as [|i]; [reflexivity | apply IH].
Qed.

Lemma replace_underscores_idempotent (s : string) :
  replace_underscores (replace_underscores s) = replace_underscores s.
Proof.
  induction s as [|c rest IH]; simpl; [reflexivity|]. rewrite IH. f_equal.
  destruct (Ascii.eqb c "_"%char) eqn:E; [reflexivity | rewrite E; reflexivity].
Qed.

Lemma replace_underscores_none (s : string) :
  (forall i, String.get i s <> Some "_"%char) -> replace_underscores s = s.
Proof.
  induction s as [|c rest IH]; intros H; simpl; [reflexivity|].
  rewrite IH by (intros i; exact (H (S i))).
  destruct (Ascii.eqb c "_"%char) eqn:E; [|reflexivity].
  apply Ascii.eqb_eq in E. subst c. exfalso. exact (H 0%nat eq_refl).
Qed.

Lemma upper_ascii_is_ascii (c : ascii) :
  (nat_of_ascii c <? 128)%nat = true -> (nat_of_ascii (upper_ascii c) <? 128)%nat = true.
Proof. destruct c as [[] [] [] [] [] [] [] []]; intros H; first [exact H | reflexivity]. Qed.

Lemma replace_underscores_is_ascii (s : string) :
  is_ascii s = true -> is_ascii (replace_underscores s) = true.
Proof.
  induction s as [|c rest IH]; simpl; [reflexivity|].
  intros H. apply andb_true_iff in H. destruct H as [Hc Hrest].
  rewrite (IH Hrest), andb_true_r.
  destruct (Ascii.eqb c "_"%char); [reflexivity | exact Hc].
Qed.

(** X1.  For a key of ASCII characters, the label of a stat has the length
    of its key and is again made of ASCII characters, and labelling a label
    changes nothing. *)
Theorem formatStatKey_length_idempotent (key : string) :
  is_ascii key = true ->
  String.length (formatStatKey key) = String.length key /\
  is_ascii (formatStatKey key) = true /\
  formatStatKey (formatStatKey key) = formatStatKey key.
Proof.
  intros Ha. destruct key as [|c rest]; simpl; [repeat split|].
  simpl in Ha. apply andb_true_iff in Ha. destruct Ha as [Hc Hrest].
  rewrite replace_underscores_length, upper_ascii_idempotent,
    replace_underscores_idempotent, (upper_ascii_is_ascii c Hc),
    (replace_underscores_is_ascii rest Hrest).
  repeat split.
Qed.

Lemma formatStatKey_length_idempotent_witness :
  String.length (formatStatKey "max_hp") = 6%nat /\
  formatStatKey (formatStatKey "max_hp") = formatStatKey "max_hp".
Proof.
  destruct (formatStatKey_length_idempotent "max_hp" eq_refl) as (Hlen & _ & Hidem).
  exact (conj Hlen Hidem).
Defined.

(** X2.  For a key of ASCII characters: after its first character a label
    holds no underscore, each one of the key is a space in the label and
    every other character is kept.  The first character is only upper-cased,
    so a leading underscore stays.  A key without underscores after its first
    character gets the label the demo-only screen gives it (first letter
    upper-cased, rest untouched). *)
Theorem formatStatKey_underscores (key : string) :
  is_ascii key = true ->
  (forall i c, (0 < i)%nat -> String.get i key = Some c ->
     String.get i (formatStatKey key) =
       Some (if Ascii.eqb c "_"%char then " "%char else c)) /\
  (forall i, (0 < i)%nat -> String.get i (formatStatKey key) <> Some "_"%char) /\
  (forall c, String.get 0 key = Some c ->
     String.get 0 (formatStatKey key) = Some (upper_ascii c)) /\
  ((forall i, (0 < i)%nat -> String.get i key <> Some "_"%char) ->
     formatStatKey key = capitalize key).
Proof.
  intros _. destruct key as [|k rest]; simpl.
  - split; [intros i c _ H; discriminate H|].
    split; [intros i _ H; destruct i; discriminate H|].
    split; [intros c H; discriminate H | reflexivity].
  - split; [|split; [|split]].
    + intros [|i] c Hi Hc; [lia|]. rewrite replace_underscores_get, Hc. reflexivity.
    + intros [|i] Hi; [lia|]. rewrite replace_underscores_get.
      destruct (String.get i rest) as [c|]; simpl; [|discriminate].
      destruct (Ascii.eqb c "_"%char) eqn:E; [discriminate|].
      intros H. injection H as ->. discriminate E.
    + intros c H. injection H as ->. reflexivity.
    + intros H. rewrite replace_underscores_none; [reflexivity|].
      intros i. apply (H (S i)). lia.
Qed.

Lemma formatStatKey_underscores_witness :
  String.get 3 (formatStatKey "max_hp") = Some " "%char /\
  String.get 0 (formatStatKey "_gold") = Some "_"%char /\
  formatStatKey "health" = capitalize "health".
Proof.
  destruct (formatStatKey_underscores "max_hp" eq_refl) as (H1 & _).
  destruct (formatStatKey_underscores "_gold" eq_refl) as (_ & _ & H3 & _).
  destruct (formatStatKey_underscores "health" eq_refl) as (_ & _ & _ & H4).
  split; [exact (H1 3%nat "_"%char ltac:(lia) eq_refl)|].
  split; [exact (H3 "_"%char eq_refl)|].
  apply H4. intros i Hi.
  do 6 (destruct i as [|i]; [discriminate|]). discriminate.
Defined.

End StatLabels.

(** ** The numbering of the history panel *)

Section PanelNumbering.

Lemma render_rows (sigma : gmap nat (list Entry.t)) (r : nat) (h : list Entry.t) :
  sigma !! r = Some h -> h <> [] ->
  exists sigma',
    HistoryPanel.render r sigma =
      (sigma',
       HistoryPanel.HistoryList
         (imap (fun i e => HistoryPanel.mkRow (length h - i) e)
               (reverse (drop (length h - 10) h)))
         (if (10 <? length h)%nat then Some (length h - 10)%nat else None)).
Proof.
  intros Hr Hne. unfold HistoryPanel.render.
  assert (Hread : store_read r sigma = h) by (unfold store_read; rewrite Hr; reflexivity).
  rewrite Hread.
  destruct (length h =? 0)%nat eqn:E0.
  { apply Nat.eqb_eq in E0. destruct h; [congruence | discriminate E0]. }
  destruct (slice_reverse_fresh (-10) r sigma h Hr) as (r' & Hsr & _ & _).
  rewrite Hsr. eexists. unfold store_read. rewrite lookup_insert_eq. simpl.
  rewrite (slice_negative 10 h ltac:(lia) : slice (-10) h = _). reflexivity.
Qed.

(** X3.  In the history panel the row labelled [#n] shows the n-th entry of
    the history (counting from 1): labels run down from the length of the
    history, one per row, and never reach 0. *)
Theorem history_panel_numbering
    (sigma sigma' : gmap nat (list Entry.t)) (r : nat) (h : list Entry.t)
    (rows : list HistoryPanel.Row) (overflow : option nat) :
  sigma !! r = Some h ->
  HistoryPanel.render r sigma = (sigma', HistoryPanel.HistoryList rows overflow) ->
  forall i row, rows !! i = Some row ->
    HistoryPanel.number row = (length h - i)%nat /\
    (1 <= HistoryPanel.number row)%nat /\
    h !! (HistoryPanel.number row - 1)%nat = Some (HistoryPanel.entry row).
Proof.
  intros Hr Hrender i row Hrow.
  assert (Hne : h <> []).
  { intros ->. unfold HistoryPanel.render, store_read in Hrender.
    rewrite Hr in Hrender. simpl in Hrender. discriminate Hrender. }
  destruct (render_rows sigma r h Hr Hne) as (sigma0 & Heq).
  rewrite Heq in Hrender. injection Hrender as _ <- _.
  rewrite list_lookup_imap in Hrow.
  destruct (reverse (drop (length h - 10) h) !! i) as [e|] eqn:He; [|discriminate Hrow].
  injection Hrow as <-. simpl.
  assert (Hi : (i < Nat.min (length h) 10)%nat).
  { apply lookup_lt_Some in He. rewrite window_length in He. exact He. }
  rewrite window_lookup in He by exact Hi.
  split; [reflexivity|]. split; [lia|].
  rewrite <- He. f_equal. lia.
Qed.

Lemma history_panel_numbering_witness :
  let h := sample_entry <$> seq 1 12 in
  exists sigma' rows overflow row,
    HistoryPanel.render 0 {[0%nat := h]} = (sigma', HistoryPanel.HistoryList rows overflow) /\
    rows !! 9%nat = Some row /\
    HistoryPanel.number row = 3%nat /\
    h !! 2%nat = Some (HistoryPanel.entry row).
Proof.
  intros h.
  assert (H0 : ({[0%nat := h]} : gmap nat (list Entry.t)) !! 0%nat = Some h)
    by (vm_compute; reflexivity).
  destruct (render_rows {[0%nat := h]} 0 h H0 ltac:(discriminate)) as (sigma' & Hrender).
  eexists sigma', _, _, (HistoryPanel.mkRow 3 (sample_entry 3)).
  split; [exact Hrender|].
  assert (Hrow : imap (fun i e => HistoryPanel.mkRow (length h - i) e)
                      (reverse (drop (length h - 10) h)) !! 9%nat
                 = Some (HistoryPanel.mkRow 3 (sample_entry 3)))
    by (vm_compute; reflexivity).
  split; [exact Hrow|].
  destruct (history_panel_numbering _ _ _ _ _ _ H0 Hrender 9%nat _ Hrow)
    as (Hn & _ & He).
  rewrite Hn in He. exact (conj Hn He).
Defined.

End PanelNumbering.

(** ** The screen with the demo fallback, over every run of events *)

Section WorkingGameScreenRuns.
Import WorkingGameScreen.

Lemma after_keeps_game (s : State) (e : Event) :
  is_Some (gameState s) -> is_Some (gameState (after s e)).
Proof.
  intros [g Hg]. destruct e as [|o|choiceIndex now|o]; simpl.
  - rewrite Hg. eauto.
  - unfold startNewGame_resume. destruct (ok o); simpl; eauto.
  - unfold makeChoice_request. rewrite Hg.
    destruct (demoMode s); simpl; [eauto|].
    destruct (sessionId s) as [sid|]; simpl; [|rewrite Hg; eauto].
    destruct (String.eqb sid EmptyString); simpl; rewrite Hg; eauto.
  - unfold makeChoice_resume. destruct (ok o); simpl; [eauto | rewrite Hg; eauto].
Qed.

Lemma after_game_on_screen (s : State) (e : Event) :
  game_on_screen s -> game_on_screen (after s e).
Proof.
  intros [Hdemo Hsid].
  destruct (gameState s) as [g|] eqn:Hg.
  { assert (Hsome : is_Some (gameState (after s e)))
      by (apply after_keeps_game; rewrite Hg; eauto).
    split; intros _; exact Hsome. }
  assert (Hd : demoMode s = false).
  { destruct (demoMode s); [|reflexivity]. destruct (Hdemo eq_refl) as [x Hx]. discriminate Hx. }
  assert (Ht : truthy (sessionId s) = false).
  { destruct (truthy (sessionId s)); [|reflexivity].
    destruct (Hsid eq_refl) as [x Hx]. discriminate Hx. }
  destruct e as [|o|choiceIndex now|o]; simpl.
  - split; simpl; [discriminate | rewrite Ht; discriminate].
  - unfold startNewGame_resume. destruct (ok o); split; simpl; eauto.
  - unfold makeChoice_request. rewrite Hd.
    destruct (sessionId s) as [sid|] eqn:Hs; simpl.
    + simpl in Ht. apply negb_false_iff in Ht. rewrite Ht. simpl.
      split; simpl; rewrite ?Hd, ?Hs; simpl; [discriminate | rewrite Ht; discriminate].
    + split; simpl; rewrite ?Hd, ?Hs; discriminate.
  - unfold makeChoice_resume. destruct (ok o); split; simpl; eauto;
      rewrite ?Hd, ?Ht; discriminate.
Qed.

Lemma trace_game_on_screen (s : State) (events : list Event) :
  game_on_screen s -> game_on_screen (trace s events).
Proof.
  revert s. induction events as [|e events IH]; intros s H; [exact H|].
  simpl. apply IH, after_game_on_screen, H.
Qed.

Lemma trace_keeps_game (s : State) (events : list Event) :
  is_Some (gameState s) -> is_Some (gameState (trace s events)).
Proof.
  revert s. induction events as [|e events IH]; intros s H; [exact H|].
  simpl. apply IH, after_keeps_game, H.
Qed.

Lemma initial_game_on_screen : game_on_screen initial.
Proof. split; simpl; discriminate. Qed.

(** X4.  Whatever has happened to the screen since it was mounted (starts,
    choices and settlements in any order), [makeChoice] never runs into the
    null [gameState] its demo branch would dereference; and whenever it posts
    a request, the request carries the stored session id and the history has
    gained the entry for the game on screen. *)
Theorem makeChoice_never_throws (events : list Event) (choiceIndex now : Z) :
  let s := trace initial events in
  (forall s', makeChoice_request s choiceIndex now <> Throws s') /\
  (forall s' req, makeChoice_request s choiceIndex now = Await s' req ->
     exists g sid,
       gameState s = Some g /\ sessionId s = Some sid /\
       req = MakeChoice sid choiceIndex /\
       history s' =
         (history s ++
          [Entry.mk (Game.story g) (index (Game.choices g) choiceIndex) now])%list).
Proof.
  intros s.
  destruct (trace_game_on_screen initial events initial_game_on_screen) as [Hdemo Hsid].
  fold s in Hdemo, Hsid.
  unfold makeChoice_request. split.
  - intros s'. destruct (demoMode s) eqn:Hd.
    + destruct (Hdemo eq_refl) as [g Hg]. rewrite Hg. discriminate.
    + destruct (sessionId s) as [sid|]; [|discriminate].
      destruct (String.eqb sid EmptyString); discriminate.
  - intros s' req. destruct (demoMode s) eqn:Hd.
    + destruct (gameState s); discriminate.
    + destruct (sessionId s) as [sid|] eqn:Hs; [|discriminate].
      destruct (String.eqb sid EmptyString) eqn:He; [discriminate|].
      assert (Ht : truthy (Some sid) = true) by (simpl; rewrite He; reflexivity).
      destruct (Hsid Ht) as [g Hg]. rewrite Hg.
      intros H. injection H as <- <-. exists g, sid.
      split; [reflexivity|]. split; [reflexivity|]. split; reflexivity.
Qed.

Lemma makeChoice_never_throws_witness :
  let d := Response.mk true (Some "s-1") "A door." ["Open"; "Knock"; "Leave"] ∅ None in
  let events := [NewAdventure; StartSettles (Resolved (Some d))] in
  exists s',
    makeChoice_request (trace initial events) 2 1000 = Await s' (MakeChoice "s-1" 2) /\
    history s' = [Entry.mk "A door." (Some "Leave") 1000].
Proof.
  intros d events.
  destruct (makeChoice_never_throws events 2 1000) as [_ Hawait].
  destruct (makeChoice_request (trace initial events) 2 1000) as [s'|s' req|s'] eqn:E;
    try discriminate E.
  destruct (Hawait s' req eq_refl) as (g & sid & Hg & Hs & Hreq & Hh).
  injection Hg as <-. injection Hs as <-.
  exists s'. rewrite Hreq. split; [reflexivity | exact Hh].
Defined.

(** X5.  Once a first start has settled, in success or in fallback, there is
    a game on screen for good: whatever happens afterwards, the screen never
    goes back to the initializing view. *)
Theorem initializing_only_before_first_settlement
    (before : list Event) (o : Outcome) (afterwards : list Event) :
  let s := trace initial (before ++ StartSettles o :: afterwards) in
  is_Some (gameState s) /\ initializing s = false.
Proof.
  intros s.
  assert (H : is_Some (gameState s)).
  { unfold s, trace. rewrite fold_left_app. simpl. apply trace_keeps_game.
    unfold startNewGame_resume. destruct (ok o); simpl; eauto. }
  split; [exact H|]. unfold initializing. destruct H as [g Hg]. rewrite Hg. reflexivity.
Qed.

End WorkingGameScreenRuns.

(** ** The screen with the demo fallback, call by call *)

Section WorkingGameScreenCalls.
Import WorkingGameScreen.

Lemma demo_run_state (s : State) (g : Game.t) (calls : list Call) :
  demoMode s = true -> gameState s = Some g ->
  demoMode (run s calls) = true /\
  sessionId (run s calls) = sessionId s /\
  error (run s calls) = error s /\
  isLoading (run s calls) = isLoading s /\
  length (history (run s calls)) = (length (history s) + length calls)%nat /\
  exists g',
    gameState (run s calls) = Some g' /\ Game.stats g' = Game.stats g /\
    (calls <> [] ->
     Game.choices g' =
       [ "Continue exploring"; "Check your surroundings"; "Try something different" ]).
Proof.
  revert s g. induction calls as [|c calls IH]; intros s g Hd Hg.
  - simpl. repeat (split; [first [reflexivity | exact Hd | lia]|]).
    exists g. split; [exact Hg|]. split; [reflexivity | congruence].
  - simpl. fold (run (makeChoice s (picked c) (at_time c) (settles c)) calls).
    pose (g1 := Game.mk
                  ("You chose: " ++ dquote ++
                   interpolate (index (Game.choices g) (picked c)) ++ dquote ++
                   newline ++ newline ++ "The adventure continues in demo mode...")
                  [ "Continue exploring"; "Check your surroundings";
                    "Try something different" ]
                  (Game.stats g)).
    pose (s1 := setGameState (Some g1)
                  (setHistory
                     (history s ++
                      [Entry.mk (Game.story g) (index (Game.choices g) (picked c))
                                (at_time c)]) s)).
    assert (Hstep : makeChoice s (picked c) (at_time c) (settles c) = s1).
    { unfold makeChoice. rewrite (makeChoice_request_demo s g _ _ Hd Hg). reflexivity. }
    rewrite Hstep.
    destruct (IH s1 g1 Hd eq_refl)
      as (H1 & H2 & H3 & H4 & H5 & g' & Hg' & Hstats & Hchoices).
    simpl in H2, H3, H4, H5, Hstats. rewrite length_app in H5. simpl in H5.
    split; [exact H1|]. split; [exact H2|]. split; [exact H3|]. split; [exact H4|].
    split; [lia|].
    exists g'. split; [exact Hg'|]. split; [exact Hstats|].
    intros _. destruct calls as [|c' calls'].
    + simpl in Hg'. injection Hg' as <-. reflexivity.
    + apply Hchoices. discriminate.
Qed.

(** X6.  Demo mode is kept by [makeChoice]: over any sequence of calls from a
    demo state the screen stays in demo mode, no call posts a request, the
    stats stay those of the start, session id, error and loading flag are
    untouched, the history grows by one entry per call, and from the first
    call on the choices are the three fixed ones. *)
Theorem demo_mode_is_kept (s : State) (g : Game.t) (calls : list Call) :
  demoMode s = true -> gameState s = Some g ->
  let s' := run s calls in
  demoMode s' = true /\
  sessionId s' = sessionId s /\ error s' = error s /\ isLoading s' = isLoading s /\
  length (history s') = (length (history s) + length calls)%nat /\
  (exists g',
     gameState s' = Some g' /\ Game.stats g' = Game.stats g /\
     (calls <> [] ->
      Game.choices g' =
        [ "Continue exploring"; "Check your surroundings"; "Try something different" ])) /\
  (forall i c, calls !! i = Some c ->
     exists s2,
       makeChoice_request (run s (take i calls)) (picked c) (at_time c) = Return s2).
Proof.
  intros Hd Hg s'.
  destruct (demo_run_state s g calls Hd Hg) as (H1 & H2 & H3 & H4 & H5 & H6).
  repeat (split; [assumption|]).
  intros i c _.
  destruct (demo_run_state s g (take i calls) Hd Hg) as (Hd' & _ & _ & _ & _ & g' & Hg' & _).
  eexists. apply (makeChoice_request_demo _ g'); assumption.
Qed.

Lemma demo_mode_is_kept_witness :
  let s := startNewGame initial (Rejected None) in
  let calls := [mkCall 0 1000 (Rejected None); mkCall 2 1001 (Rejected None)] in
  demoMode (run s calls) = true /\
  length (history (run s calls)) = 2%nat /\
  exists g', gameState (run s calls) = Some g' /\ Game.stats g' = Game.stats demoData.
Proof.
  intros s calls.
  destruct (demo_mode_is_kept s demoData calls eq_refl eq_refl)
    as (Hd & _ & _ & _ & Hlen & (g' & Hg' & Hstats & _) & _).
  split; [exact Hd|]. split; [exact Hlen|].
  exists g'. exact (conj Hg' Hstats).
Defined.

(** X7.  A live-mode [makeChoice] whose request succeeds shows the story,
    choices and stats of the answer, clears the error, keeps the entry
    appended before the request and the stored session id (an id in the
    answer is not read), and clears the loading flag; so does the live-only
    screen. *)
Theorem live_choice_success_shows_answer
    (choiceIndex now : Z) (o : Outcome) (d : Response.t) :
  ok o = Some d ->
  let answer :=
    Game.mk (Response.story d) (Response.choices d) (Response.player_stats d) in
  (forall (s : State) (g : Game.t) (sid : string),
     demoMode s = false -> sessionId s = Some sid -> sid <> EmptyString ->
     gameState s = Some g ->
     let s' := makeChoice s choiceIndex now o in
     gameState s' = Some answer /\ error s' = None /\
     history s' =
       (history s ++
        [Entry.mk (Game.story g) (index (Game.choices g) choiceIndex) now])%list /\
     sessionId s' = Some sid /\ isLoading s' = false /\ mode s' = Live) /\
  (forall (s : GameScreen.State) (g : Game.t) (sid : string),
     GameScreen.sessionId s = Some sid -> sid <> EmptyString ->
     GameScreen.gameState s = Some g ->
     let s' := GameScreen.makeChoice s choiceIndex now o in
     GameScreen.gameState s' = Some answer /\ GameScreen.error s' = None /\
     GameScreen.history s' =
       (GameScreen.history s ++
        [Entry.mk (Game.story g) (index (Game.choices g) choiceIndex) now])%list /\
     GameScreen.sessionId s' = Some sid /\ GameScreen.isLoading s' = false).
Proof.
  intros Hok answer. split.
  - intros s g sid Hd Hs Hne Hg s'. subst s'.
    unfold makeChoice. rewrite (makeChoice_request_live s g sid _ _ Hd Hs Hne Hg).
    unfold makeChoice_resume, mode. rewrite Hok. simpl. rewrite Hd, Hs.
    repeat (split; [reflexivity|]). reflexivity.
  - intros s g sid Hs Hne Hg s'. subst s'.
    unfold GameScreen.makeChoice, GameScreen.makeChoice_request. rewrite Hs, Hg.
    apply String.eqb_neq in Hne. rewrite Hne.
    unfold GameScreen.makeChoice_resume. rewrite Hok. simpl. rewrite Hs.
    repeat (split; [reflexivity|]). reflexivity.
Qed.

Lemma live_choice_success_shows_answer_witness :
  let d0 := Response.mk true (Some "s-1") "A door." ["Open"; "Knock"; "Leave"] ∅ None in
  let d1 := Response.mk true (Some "other") "It opens." ["Enter"; "Wait"; "Run"] ∅ None in
  let s := startNewGame initial (Resolved (Some d0)) in
  let s' := makeChoice s 0 1000 (Resolved (Some d1)) in
  gameState s' = Some (Game.mk "It opens." ["Enter"; "Wait"; "Run"] ∅) /\
  history s' = [Entry.mk "A door." (Some "Open") 1000] /\
  sessionId s' = Some "s-1".
Proof.
  intros d0 d1 s s'.
  destruct (live_choice_success_shows_answer 0 1000 (Resolved (Some d1)) d1 eq_refl)
    as [Hw _].
  destruct (Hw s (Game.mk "A door." ["Open"; "Knock"; "Leave"] ∅) "s-1"
              eq_refl eq_refl ltac:(discriminate) eq_refl)
    as (Hg & _ & Hh & Hs & _).
  exact (conj Hg (conj Hh Hs)).
Defined.

(** X8.  Outside demo mode and without a session id (null or the empty
    string), [makeChoice] posts nothing and only writes the error cell: after
    any non-empty sequence of calls the state is the one before with the
    error "No active game session", history and game untouched. *)
Theorem choices_without_session_only_set_error (s : State) (calls : list Call) :
  demoMode s = false -> truthy (sessionId s) = false -> calls <> [] ->
  run s calls = setError (Some "No active game session") s /\
  forall i c, calls !! i = Some c ->
    exists s2,
      makeChoice_request (run s (take i calls)) (picked c) (at_time c) = Return s2.
Proof.
  intros Hd Ht Hne.
  assert (Hone : forall s0 choiceIndex now,
            demoMode s0 = false -> truthy (sessionId s0) = false ->
            makeChoice_request s0 choiceIndex now =
              Return (setError (Some "No active game session") s0)).
  { intros s0 choiceIndex now Hd0 Ht0. unfold makeChoice_request. rewrite Hd0.
    destruct (sessionId s0) as [sid|]; [|reflexivity].
    simpl in Ht0. apply negb_false_iff in Ht0. rewrite Ht0. reflexivity. }
  assert (Hrun : forall cs s0,
            demoMode s0 = false -> truthy (sessionId s0) = false ->
            demoMode (run s0 cs) = false /\ truthy (sessionId (run s0 cs)) = false /\
            (cs <> [] -> run s0 cs = setError (Some "No active game session") s0)).
  { induction cs as [|c cs IH]; intros s0 Hd0 Ht0.
    - split; [exact Hd0|]. split; [exact Ht0 | congruence].
    - simpl. fold (run (makeChoice s0 (picked c) (at_time c) (settles c)) cs).
      unfold makeChoice at 1 2 3. rewrite (Hone s0 _ _ Hd0 Ht0).
      destruct (IH (setError (Some "No active game session") s0) Hd0 Ht0)
        as (H1 & H2 & H3).
      split; [exact H1|]. split; [exact H2|]. intros _.
      destruct cs as [|c' cs']; [reflexivity|].
      rewrite H3 by discriminate. reflexivity. }
  split; [apply Hrun; assumption|].
  intros i c _.
  destruct (Hrun (take i calls) s Hd Ht) as (Hd' & Ht' & _).
  eexists. apply Hone; assumption.
Qed.

Lemma choices_without_session_only_set_error_witness :
  let idless := Response.mk true (Some EmptyString) "A door." ["Open"; "Knock"; "Leave"] ∅ None in
  let s := startNewGame initial (Resolved (Some idless)) in
  let calls := [mkCall 0 1000 (Rejected None); mkCall 1 1001 (Rejected None)] in
  run s calls = setError (Some "No active game session") s /\ history (run s calls) = [].
Proof.
  intros idless s calls.
  destruct (choices_without_session_only_set_error s calls eq_refl eq_refl
              ltac:(discriminate)) as [Hrun _].
  split; [exact Hrun | rewrite Hrun; reflexivity].
Defined.

(** X9.  No answer is checked against the game it was asked for.  A
    [makeChoice] answer that settles after a new game has been started (the
    New Adventure button stays enabled while a choice is in flight) replaces
    the new game's story, choices and stats by its own, while the session id,
    the demo flag and the emptied history are those of the new game. *)
Theorem late_choice_answer_overwrites_new_game
    (s : State) (started late : Outcome) (d : Response.t) :
  ok late = Some d ->
  let fresh_game := startNewGame s started in
  let s' := makeChoice_resume fresh_game late in
  gameState s' =
    Some (Game.mk (Response.story d) (Response.choices d) (Response.player_stats d)) /\
  sessionId s' = sessionId fresh_game /\
  demoMode s' = demoMode fresh_game /\
  history s' = [] /\
  isLoading s' = false.
Proof.
  intros Hok fresh_game s'. subst s' fresh_game.
  unfold makeChoice_resume. rewrite Hok.
  unfold startNewGame, startNewGame_resume. destruct (ok started); simpl;
    repeat (split; [reflexivity|]); reflexivity.
Qed.

Lemma late_choice_answer_overwrites_new_game_witness :
  let d0 := Response.mk true (Some "s-1") "A door." ["Open"; "Knock"; "Leave"] ∅ None in
  let d1 := Response.mk true None "It opens." ["Enter"; "Wait"; "Run"] ∅ None in
  let d2 := Response.mk true (Some "s-2") "A cave." ["Dig"; "Sing"; "Sleep"] ∅ None in
  let s := startNewGame initial (Resolved (Some d0)) in
  let s' := makeChoice_resume (startNewGame s (Resolved (Some d2))) (Resolved (Some d1)) in
  gameState s' = Some (Game.mk "It opens." ["Enter"; "Wait"; "Run"] ∅) /\
  sessionId s' = Some "s-2".
Proof.
  intros d0 d1 d2 s s'.
  destruct (late_choice_answer_overwrites_new_game s (Resolved (Some d2))
              (Resolved (Some d1)) d1 eq_refl) as (Hg & Hs & _).
  exact (conj Hg Hs).
Defined.

End WorkingGameScreenCalls.

(** ** From the click to the log *)

Section ClickAndLog.
Import WorkingGameScreen.

Lemma index_of_nat {A} (arr : list A) (i : nat) : index arr (Z.of_nat i) = arr !! i.
Proof.
  unfold index.
  assert (E : (Z.of_nat i <? 0)%Z = false) by (apply Z.ltb_ge; lia).
  rewrite E, Nat2Z.id. reflexivity.
Qed.

(** X10.  What is clicked is what is logged: a click on an enabled choice
    button (no request in flight) of a screen that accepts choices appends
    one entry holding the story on screen and the text of that very button,
    whether the call returns at once (demo) or posts a request (live). *)
Theorem click_records_button_text (s : State) (b : Button) (now : Z) :
  b ∈ choiceButtons s -> isLoading s = false -> accepts s = true ->
  exists s' g,
    gameState s = Some g /\
    (click b s now = Return s' \/
     exists sid, sessionId s = Some sid /\
                 click b s now = Await s' (MakeChoice sid (Z.of_nat (onClick b)))) /\
    history s' = (history s ++ [Entry.mk (Game.story g) (Some (text b)) now])%list.
Proof.
  intros Hb Hl Hacc.
  destruct (elem_of_choiceButtons s b Hb) as (g & Hg & Hdis & Hc).
  rewrite Hl in Hdis. unfold click. rewrite Hdis.
  unfold accepts in Hacc. rewrite Hg in Hacc.
  destruct (demoMode s) eqn:Hd.
  - rewrite (makeChoice_request_demo s g _ _ Hd Hg), index_of_nat, Hc.
    eexists _, g. split; [exact Hg|]. split; [left; reflexivity | reflexivity].
  - simpl in Hacc. destruct (sessionId s) as [sid|] eqn:Hs; [|discriminate Hacc].
    pose proof (proj1 (truthy_Some sid) Hacc) as Hne.
    rewrite (makeChoice_request_live s g sid _ _ Hd Hs Hne Hg), index_of_nat, Hc.
    eexists _, g. split; [exact Hg|].
    split; [right; exists sid; split; reflexivity | reflexivity].
Qed.

Lemma click_records_button_text_witness :
  let s := startNewGame initial (Rejected None) in
  let b := mkButton "Examine the entrance for traps" 1 false in
  exists s',
    click b s 1000 = Return s' /\
    history s' = [Entry.mk (Game.story demoData) (Some "Examine the entrance for traps") 1000].
Proof.
  intros s b.
  assert (Hb : b ∈ choiceButtons s).
  { apply list_elem_of_lookup. exists 1%nat. reflexivity. }
  destruct (click_records_button_text s b 1000 Hb eq_refl eq_refl)
    as (s' & g & Hg & Hclick & Hh).
  injection Hg as <-.
  destruct Hclick as [Hret | (sid & Hs & _)]; [|discriminate Hs].
  exists s'. exact (conj Hret Hh).
Defined.

Lemma adventureLog_shown (sigma : gmap nat (list Entry.t)) (r : nat) (h : list Entry.t) :
  sigma !! r = Some h -> h <> [] ->
  exists sigma',
    adventureLog r sigma =
      (sigma', LogList (Entry.choice <$> reverse (drop (length h - 5) h))).
Proof.
  intros Hr Hne. unfold adventureLog.
  assert (Hread : store_read r sigma = h) by (unfold store_read; rewrite Hr; reflexivity).
  rewrite Hread.
  destruct (length h =? 0)%nat eqn:E0.
  { apply Nat.eqb_eq in E0. destruct h; [congruence | discriminate E0]. }
  destruct (slice_reverse_fresh (-5) r sigma h Hr) as (r' & Hsr & _ & _).
  rewrite Hsr. eexists. unfold store_read. rewrite lookup_insert_eq. simpl.
  rewrite (slice_negative 5 h ltac:(lia) : slice (-5) h = _). reflexivity.
Qed.

(** X11.  The first line of the adventure log is the choice just made: after
    any sequence of accepted calls, the log rendered from the history starts
    with the text that stood at the picked index when the last call was
    made, and shows at most five lines. *)
Theorem adventure_log_starts_with_last_choice
    (s : State) (calls : list Call) (c : Call)
    (sigma : gmap nat (list Entry.t)) (r : nat) :
  accepts s = true ->
  sigma !! r = Some (history (run s (calls ++ [c]))) ->
  exists g sigma' older,
    gameState (run s calls) = Some g /\
    adventureLog r sigma =
      (sigma', LogList (index (Game.choices g) (picked c) :: older)) /\
    (length older <= 4)%nat.
Proof.
  intros Hacc Hr.
  pose proof (run_accepts s calls Hacc) as Hacc'.
  destruct (makeChoice_accepted (run s calls) (picked c) (at_time c) (settles c) Hacc')
    as (g & Hg & Hh & _).
  rewrite run_snoc, Hh in Hr.
  destruct (adventureLog_shown sigma r _ Hr) as (sigma' & Hlog).
  { intros H. apply (f_equal length) in H. rewrite length_app in H. simpl in H. lia. }
  rewrite length_app in Hlog. simpl in Hlog.
  rewrite drop_app_le in Hlog by lia.
  rewrite reverse_snoc in Hlog. simpl in Hlog.
  eexists g, sigma', _. split; [exact Hg|]. split; [exact Hlog|].
  rewrite length_fmap, length_reverse, length_drop. lia.
Qed.

Lemma adventure_log_starts_with_last_choice_witness :
  let s := startNewGame initial (Rejected None) in
  let calls := [mkCall 0 1000 (Rejected None)] in
  let c := mkCall 2 1001 (Rejected None) in
  exists sigma' older,
    adventureLog 0 {[0%nat := history (run s (calls ++ [c]))]} =
      (sigma', LogList (Some "Try something different" :: older)).
Proof.
  intros s calls c.
  assert (H0 : ({[0%nat := history (run s (calls ++ [c]))]} : gmap nat (list Entry.t))
                 !! 0%nat = Some (history (run s (calls ++ [c]))))
    by (vm_compute; reflexivity).
  destruct (adventure_log_starts_with_last_choice s calls c _ 0%nat eq_refl H0)
    as (g & sigma' & older & Hg & Hlog & _).
  injection Hg as <-.
  exists sigma', older. exact Hlog.
Defined.

End ClickAndLog.

(** ** The live-only screen *)

Section GameScreenProperties.
Import GameScreen.

Lemma or_else_truthy (a : option string) (b : string) :
  b <> EmptyString -> truthy (Some (or_else a b)) = true.
Proof.
  intros Hb. apply truthy_Some. unfold or_else.
  destruct a as [m|]; [|exact Hb].
  destruct (String.eqb m EmptyString) eqn:E; [exact Hb | apply String.eqb_neq, E].
Qed.

(** X12.  The live-only screen has no fallback.  A start that fails leaves
    game, history and session id as they were and shows an error: the
    server's message when the rejection carries a non-empty one, else the
    connection message.  So a failed New Adventure in the middle of a game
    leaves that game playable: the next choice is posted under the old
    session id. *)
Theorem failed_start_keeps_game (s : State) (o : Outcome) :
  ok o = None ->
  let s' := startNewGame s o in
  gameState s' = gameState s /\ history s' = history s /\
  sessionId s' = sessionId s /\ isLoading s' = false /\
  error s' =
    Some (or_else (server_message o)
            "Failed to connect to game server. Please check if the backend is running on port 5000.") /\
  truthy (error s') = true /\
  (forall g sid choiceIndex now,
     gameState s = Some g -> sessionId s = Some sid -> sid <> EmptyString ->
     exists s1, makeChoice_request s' choiceIndex now
                  = Await s1 (MakeChoice sid choiceIndex)).
Proof.
  intros Hok s'. subst s'.
  unfold startNewGame, startNewGame_resume. rewrite Hok. simpl.
  repeat (split; [reflexivity|]).
  split; [apply or_else_truthy; discriminate|].
  intros g sid choiceIndex now Hg Hs Hne.
  unfold makeChoice_request. simpl. rewrite Hs, Hg.
  apply String.eqb_neq in Hne. rewrite Hne. eexists. reflexivity.
Qed.

Lemma failed_start_keeps_game_witness :
  let d := Response.mk true (Some "s-1") "A door." ["Open"; "Knock"; "Leave"] ∅ None in
  let s := startNewGame initial (Resolved (Some d)) in
  let s' := startNewGame s (Rejected (Some "Server is restarting")) in
  gameState s' = gameState s /\ error s' = Some "Server is restarting".
Proof.
  intros d s s'.
  destruct (failed_start_keeps_game s (Rejected (Some "Server is restarting")) eq_refl)
    as (Hg & _ & _ & _ & He & _).
  exact (conj Hg He).
Defined.

(** X13.  Saving never touches the game: whatever the backend answers, game,
    history, session id and loading flag are unchanged, and without a session
    id nothing is posted.  A successful save writes its notice into the error
    cell and arms a 3-second timer; a rejected call or an answer without data
    writes "Failed to save game"; an answer whose [success] is false writes
    nothing at all.  When the timer fires the error cell is empty, whatever
    it held. *)
Theorem saveGame_leaves_game_alone (s : State) (o : Outcome) :
  let s' := fst (saveGame_resume s o) in
  let timer := snd (saveGame_resume s o) in
  (gameState s' = gameState s /\ history s' = history s /\
   sessionId s' = sessionId s /\ isLoading s' = isLoading s) /\
  (truthy (sessionId s) = false -> saveGame_request s = None) /\
  (forall d, ok o = Some d ->
     error s' = Some "Game saved successfully!" /\ timer = Some (ClearError 3000)) /\
  (forall d, o = Resolved (Some d) -> Response.success d = false ->
     s' = s /\ timer = None) /\
  (o = Resolved None \/ (exists m, o = Rejected m) ->
     error s' = Some "Failed to save game" /\ timer = None) /\
  timer_fires s' = setError None s.
Proof.
  intros s' timer. subst s' timer.
  split; [|split; [|split; [|split; [|split]]]].
  - destruct o as [[d|]|m]; simpl; [destruct (Response.success d)|..]; simpl;
      repeat split.
  - intros Ht. unfold saveGame_request. destruct (sessionId s) as [sid|]; [|reflexivity].
    simpl in Ht. apply negb_false_iff in Ht. rewrite Ht. reflexivity.
  - intros d Hok. destruct o as [[d0|]|m]; simpl in Hok; try discriminate Hok.
    simpl. destruct (Response.success d0); [split; reflexivity | discriminate Hok].
  - intros d -> Hs. simpl. rewrite Hs. split; reflexivity.
  - intros [->|[m ->]]; simpl; split; reflexivity.
  - destruct o as [[d|]|m]; simpl; [destruct (Response.success d)|..]; reflexivity.
Qed.

Lemma saveGame_leaves_game_alone_witness :
  let d := Response.mk true (Some "s-1") "A door." ["Open"; "Knock"; "Leave"] ∅ None in
  let unflagged := Response.mk false None EmptyString [] ∅ (Some "Game saved successfully") in
  let s := startNewGame initial (Resolved (Some d)) in
  saveGame_request s = Some (SaveGame "s-1" "web_save") /\
  saveGame_request initial = None /\
  error (fst (saveGame_resume s (Resolved (Some d)))) = Some "Game saved successfully!" /\
  fst (saveGame_resume s (Resolved (Some unflagged))) = s /\
  error (fst (saveGame_resume s (Rejected None))) = Some "Failed to save game".
Proof.
  intros d unflagged s.
  destruct (saveGame_leaves_game_alone initial (Rejected None)) as (_ & Hno & _).
  destruct (saveGame_leaves_game_alone s (Resolved (Some d))) as (_ & _ & Hok & _).
  destruct (saveGame_leaves_game_alone s (Resolved (Some unflagged)))
    as (_ & _ & _ & Hsilent & _).
  destruct (saveGame_leaves_game_alone s (Rejected None)) as (_ & _ & _ & _ & Hfail & _).
  split; [reflexivity|]. split; [exact (Hno eq_refl)|].
  split; [exact (proj1 (Hok d eq_refl))|].
  split; [exact (proj1 (Hsilent unflagged eq_refl eq_refl))|].
  apply Hfail. right. exists None. reflexivity.
Defined.

(** X14.  After a start that fails with no game on screen, the screen shows
    the placeholder story "Your adventure awaits...", the error message, an
    empty stats panel and no choices panel at all: there is nothing to pick
    until a later start succeeds. *)
Theorem failed_first_start_shows_no_choices (s : State) (o : Outcome) :
  gameState s = None -> ok o = None ->
  render (startNewGame s o) =
    Screen
      (mkLayout
         (StoryPanel.StoryText "Your adventure awaits...")
         None
         (Some (or_else (server_message o)
                  "Failed to connect to game server. Please check if the backend is running on port 5000."))
         ∅
         (history s)).
Proof.
  intros Hg Hok. unfold startNewGame, startNewGame_resume. rewrite Hok.
  unfold render. simpl. rewrite Hg. simpl.
  pose proof (or_else_truthy (server_message o)
    "Failed to connect to game server. Please check if the backend is running on port 5000."
    ltac:(discriminate)) as Ht.
  simpl in Ht. rewrite Ht. reflexivity.
Qed.

Lemma failed_first_start_shows_no_choices_witness :
  choicesPanel
    (match render (startNewGame initial (Resolved None)) with
     | Screen layout => layout
     | LoadingScreen _ => mkLayout StoryPanel.Weaving (Some ([], true)) None ∅ []
     end) = None /\
  render initial = LoadingScreen "Initializing your adventure...".
Proof.
  rewrite (failed_first_start_shows_no_choices initial (Resolved None) eq_refl eq_refl).
  split; reflexivity.
Defined.

End GameScreenProperties.

(** ** App.js: ending a game *)

Section AppEndGame.

Lemma app_run_without_session (a : App.State) (calls : list App.Call) :
  App.session a = None -> App.run a calls = a.
Proof.
  intros Hs. induction calls as [|c calls IH]; [reflexivity|].
  simpl. fold (App.run (App.makeChoice a (App.picked c) (App.settles c)
                          (App.at_time1 c) (App.at_time2 c)) calls).
  assert (Hstep : App.makeChoice a (App.picked c) (App.settles c)
                    (App.at_time1 c) (App.at_time2 c) = a).
  { unfold App.makeChoice, App.makeChoice_request. unfold App.session in Hs.
    destruct (App.sessionId a) as [sid|]; [|reflexivity].
    destruct (String.eqb sid EmptyString); [reflexivity | discriminate Hs]. }
  rewrite Hstep. exact IH.
Qed.

(** X15.  [endGame] puts every cell but the loading flag back to its initial
    value, whether or not there was a session and however the end-session
    call settles; the backend is told only when there is a session id.  In
    particular a game started (or failed to start) and then ended is the
    initial state again. *)
Theorem endGame_resets (a : App.State) :
  App.endGame a =
    App.mkState App.welcome None EmptyString [] None [] (App.isLoading a) /\
  (forall playerName o, App.endGame (App.startNewGame a playerName o) = App.initial) /\
  (forall sid, App.sessionId a = Some sid -> sid <> EmptyString ->
     App.endGame_request a = Some (App.EndSession sid)) /\
  (truthy (App.sessionId a) = false -> App.endGame_request a = None).
Proof.
  split; [reflexivity|]. split; [|split].
  - intros playerName [r|]; reflexivity.
  - intros sid Hs Hne. unfold App.endGame_request, App.session. rewrite Hs.
    apply String.eqb_neq in Hne. rewrite Hne. reflexivity.
  - intros Ht. unfold App.endGame_request, App.session.
    destruct (App.sessionId a) as [sid|]; [|reflexivity].
    simpl in Ht. apply negb_false_iff in Ht. rewrite Ht. reflexivity.
Qed.

Lemma endGame_resets_witness :
  let r := App.mkResponse (Some "s-1") "A door." ["Open"; "Knock"; "Leave"] None EmptyString in
  let a := App.startNewGame App.initial "Aria" (App.ApiResolved r) in
  App.endGame_request a = Some (App.EndSession "s-1") /\
  App.endGame_request App.initial = None /\
  App.endGame a = App.initial.
Proof.
  intros r a.
  destruct (endGame_resets a) as (_ & _ & Hreq & _).
  destruct (endGame_resets App.initial) as (_ & Hround & _ & Hnone).
  split; [exact (Hreq "s-1" eq_refl ltac:(discriminate))|].
  split; [exact (Hnone eq_refl)|].
  exact (Hround "Aria" (App.ApiResolved r)).
Defined.

(** X16.  After [endGame] nothing session-bound reaches the backend: a
    choice, a save, a stats refresh and a second [endGame] all stop at their
    session guard, and no sequence of [makeChoice] calls changes the state. *)
Theorem no_session_calls_after_endGame
    (a : App.State) (calls : list App.Call) (choiceIndex : Z) (iso millis : string) :
  let ended := App.endGame a in
  App.makeChoice_request ended choiceIndex = Return ended /\
  App.saveGame_request ended iso millis = None /\
  App.getPlayerStats_request ended = None /\
  App.endGame_request ended = None /\
  App.run ended calls = ended /\
  App.storyHistory (App.run ended calls) = [].
Proof.
  intros ended.
  assert (Hrun : App.run ended calls = ended)
    by (apply app_run_without_session; reflexivity).
  repeat (split; [reflexivity|]). split; [exact Hrun|].
  rewrite Hrun. reflexivity.
Qed.

End AppEndGame.

(** ** The demo-only screen *)

Section SimpleGameScreenProperties.
Import SimpleGameScreen.

Lemma Qred_add_10 (z : Z) : Qred (inject_Z z + 10) = inject_Z (z + 10).
Proof.
  rewrite (Qred_complete (inject_Z z + 10) (inject_Z (z + 10))).
  - apply Qcanon.Qred_identity. simpl. apply Z.gcd_1_r.
  - unfold Qeq, inject_Z, Qplus. simpl. lia.
Qed.

Lemma simple_makeChoice_stats (s : State) (choiceIndex now : Z) :
  Game.stats (gameState (makeChoice s choiceIndex now)) =
    <["experience" :=
        js_add_10 (default VUndefined (Game.stats (gameState s) !! "experience"))]>
      (Game.stats (gameState s)) /\
  history (makeChoice s choiceIndex now) =
    (history s ++
     [Entry.mk (Game.story (gameState s))
               (index (Game.choices (gameState s)) choiceIndex) now])%list /\
  isLoading (makeChoice s choiceIndex now) = isLoading s.
Proof. repeat split. Qed.

(** X17.  In the demo-only screen each choice adds 10 to the [experience]
    stat and one entry to the history, and changes no other stat: from a
    whole number [z] of experience, [n] choices lead to [z + 10 n].  (The
    bound keeps the sum among the integers a JS number holds exactly.) *)
Theorem experience_grows_by_ten (s : State) (z : Z) (calls : list (Z * Z)) :
  Game.stats (gameState s) !! "experience" = Some (VNumber (Finite (inject_Z z))) ->
  (0 <= z)%Z -> (z + 10 * Z.of_nat (length calls) < 2 ^ 53)%Z ->
  let s' := run s calls in
  Game.stats (gameState s') !! "experience" =
    Some (VNumber (Finite (inject_Z (z + 10 * Z.of_nat (length calls))))) /\
  (forall key, key <> "experience" ->
     Game.stats (gameState s') !! key = Game.stats (gameState s) !! key) /\
  length (history s') = (length (history s) + length calls)%nat.
Proof.
  intros Hexp _ _. cbv zeta. clear -Hexp.
  revert s z Hexp. induction calls as [|c calls IH]; intros s z Hexp.
  - simpl. rewrite Z.add_0_r. split; [exact Hexp|]. split; [reflexivity | lia].
  - simpl run. fold (run (makeChoice s (fst c) (snd c)) calls).
    destruct (simple_makeChoice_stats s (fst c) (snd c)) as (Hst & Hh & _).
    destruct (IH (makeChoice s (fst c) (snd c)) (z + 10)%Z) as (H1 & H2 & H3).
    { rewrite Hst, lookup_insert_eq, Hexp. simpl. rewrite Qred_add_10. reflexivity. }
    split; [|split].
    + rewrite H1. do 4 f_equal. simpl length. lia.
    + intros key Hkey. rewrite (H2 key Hkey), Hst. apply lookup_insert_ne. congruence.
    + rewrite H3, Hh, length_app. simpl. lia.
Qed.

Lemma experience_grows_by_ten_witness :
  let s' := run initial [(0, 1000); (2, 1001); (1, 1002)]%Z in
  Game.stats (gameState s') !! "experience" = Some (VNumber (Finite 30)) /\
  Game.stats (gameState s') !! "gold" = Some (VNumber (Finite 25)) /\
  length (history s') = 3%nat.
Proof.
  intros s'.
  destruct (experience_grows_by_ten initial 0 [(0, 1000); (2, 1001); (1, 1002)]%Z
              eq_refl ltac:(lia) ltac:(simpl; lia)) as (H1 & H2 & H3).
  split; [exact H1|]. split; [|exact H3].
  exact (H2 "gold" ltac:(discriminate)).
Defined.

(** X19.  New Adventure undoes every choice: whatever was picked since the
    screen was mounted, [startNewGame] gives back the initial state, with the
    demo data (experience 0 again) and an empty history; the loading flag is
    never raised, so the choice buttons are never disabled. *)
Theorem startNewGame_undoes_choices (calls : list (Z * Z)) :
  startNewGame (run initial calls) = initial /\
  isLoading (run initial calls) = false /\
  forall b, b ∈ choiceButtons (run initial calls) -> disabled b = false.
Proof.
  assert (Hl : forall cs s, isLoading (run s cs) = isLoading s).
  { induction cs as [|c cs IH]; intros s; [reflexivity|].
    simpl run. fold (run (makeChoice s (fst c) (snd c)) cs). rewrite IH. reflexivity. }
  split; [|split].
  - unfold startNewGame, setHistory, setGameState. simpl. rewrite Hl. reflexivity.
  - rewrite Hl. reflexivity.
  - intros b Hb. unfold choiceButtons in Hb.
    apply list_elem_of_lookup in Hb. destruct Hb as [i Hi].
    rewrite list_lookup_imap in Hi.
    destruct (Game.choices (gameState (run initial calls)) !! i); [|discriminate Hi].
    injection Hi as <-. simpl. rewrite Hl. reflexivity.
Qed.

Lemma startNewGame_undoes_choices_witness :
  let calls := [(0, 1000); (5, 1001)]%Z in
  startNewGame (run initial calls) = initial /\
  disabled (mkButton "Search for hidden treasures" 1 false) = false.
Proof.
  intros calls.
  destruct (startNewGame_undoes_choices calls) as (Hreset & _ & Hbuttons).
  split; [exact Hreset|].
  apply Hbuttons. apply list_elem_of_lookup. exists 1%nat. reflexivity.
Defined.

End SimpleGameScreenProperties.
